(** * eliza-starter: the vision agent's response synthesizer, vision adapter
      and HTTP facade, embedded from the JavaScript sources.

    Source files:
    - [actions/oraAction.js]          (class [OraAction])
    - [actions/googleVisionAction.js] (class [GoogleVisionAction])
    - [services/googleVisionService.js] (class [GoogleVisionClient])
    - [server.js]                     (the HTTP request handler)

    Conventions of the embedding.
    - JavaScript strings are [string]s, sequences of 8-bit characters;
      [toLowerCase] maps the letters A-Z and leaves every other character
      alone, and [length] counts characters.  This is what the engine does
      on ASCII text; on other text its lower-casing and its lengths (in
      UTF-16 code units) differ.
    - Parsed JSON data is the inductive type [value].  Numbers are the
      rationals they denote; the three number/string conversions of the
      engine that the code reaches ([Number.prototype.toString],
      [Number.prototype.toFixed], the string-to-number coercion) are the
      fields of the class [NumberOps].
    - Code that can throw lives in the error monad [result]; [try_catch] is
      the try/catch statement.
    - Converting a value to a string or a number can throw ([ToString],
      [ToNumber]); every such conversion is kept where the source has it,
      also inside the arguments of logging statements.  Apart from that the
      [console.log] / [console.warn] / [console.error] calls and the one
      second [setTimeout] pause have no effect on any returned value and are
      left out.
    - The call stack is unbounded: the RangeError that an engine raises
      when a conversion or [JSON.stringify] recurses through data nested
      thousands of levels deep is not part of the embedding. *)

From Stdlib Require Import Bool Arith List String Ascii DecimalString QArith Lia.
Import ListNotations.
Close Scope Q_scope.
Open Scope list_scope.
Open Scope string_scope.
Open Scope nat_scope.

(* ================================================================== *)
(** * JavaScript string and array primitives *)

Module JS.

(** The double-quote character, as it occurs inside the source's template
    literals. *)
Definition dquote : string := String (ascii_of_nat 34) EmptyString.

(** The line feed written [\n] in the source. *)
Definition newline : string := String (ascii_of_nat 10) EmptyString.

Definition lower_ascii (c : ascii) : ascii :=
  let n := nat_of_ascii c in
  if (65 <=? n) && (n <=? 90) then ascii_of_nat (n + 32) else c.

(** [String.prototype.toLowerCase] *)
Fixpoint toLowerCase (s : string) : string :=
  match s with
  | EmptyString => EmptyString
  | String c s' => String (lower_ascii c) (toLowerCase s')
  end.

(** [String.prototype.startsWith] *)
Definition startsWith (s p : string) : bool := String.prefix p s.

(** [String.prototype.includes]: unanchored substring test. *)
Fixpoint includes (s sub : string) : bool :=
  String.prefix sub s ||
  match s with
  | EmptyString => false
  | String _ s' => includes s' sub
  end.

(** [Array.prototype.includes] on an array of strings. *)
Definition Array_includes (l : list string) (x : string) : bool :=
  existsb (String.eqb x) l.

(** [Array.prototype.join] on an array of strings. *)
Definition join (sep : string) (l : list string) : string :=
  String.concat sep l.

(** [Array.prototype.slice(start, stop)] for non-negative indices. *)
Definition slice {A : Type} (start stop : nat) (l : list A) : list A :=
  firstn (stop - start) (skipn start l).

(** [Array.prototype.slice(start)] *)
Definition slice_from {A : Type} (start : nat) (l : list A) : list A :=
  skipn start l.

(** [String.prototype.substring(0, n)] *)
Definition substring0 (n : nat) (s : string) : string := String.substring 0 n s.

(** [a[0]], [undefined] when the array is empty. *)
Definition first {A : Type} (l : list A) : option A := hd_error l.

(** [x || dflt] for a possibly undefined string [x]: the empty string is
    falsy as well. *)
Definition or_else (x : option string) (dflt : string) : string :=
  match x with
  | Some s => if (0 <? String.length s) then s else dflt
  | None => dflt
  end.

(** [x ? yes(x) : no] for a possibly undefined string [x]. *)
Definition if_truthy (x : option string) (yes : string -> string) (no : string)
  : string :=
  match x with
  | Some s => if (0 <? String.length s) then yes s else no
  | None => no
  end.

(** [`${x}`] for a possibly undefined string. *)
Definition show (x : option string) : string :=
  match x with
  | Some s => s
  | None => "undefined"
  end.

(** [s.split(sep)[1]] for a one-character separator: the text between the
    first and the second occurrence of [sep], [undefined] when [sep] does
    not occur. *)
Fixpoint upto (sep : ascii) (s : string) : string :=
  match s with
  | EmptyString => EmptyString
  | String c s' => if Ascii.eqb c sep then EmptyString else String c (upto sep s')
  end.

Fixpoint split_second (sep : ascii) (s : string) : option string :=
  match s with
  | EmptyString => None
  | String c s' => if Ascii.eqb c sep then Some (upto sep s') else split_second sep s'
  end.

(** ** Parsed JSON data *)

#[warnings="-register-all"] Inductive value : Type :=
| VUndefined
| VNull
| VBool (b : bool)
| VNum (n : Q)
| VStr (s : string)
| VArr (elems : list value)
| VObj (props : list (string * value)).

Fixpoint lookup (k : string) (props : list (string * value)) : option value :=
  match props with
  | [] => None
  | (k', v) :: rest => if String.eqb k k' then Some v else lookup k rest
  end.

(** The value of a field of an object, [undefined] when absent. *)
Definition field (k : string) (props : list (string * value)) : value :=
  match lookup k props with
  | Some v => v
  | None => VUndefined
  end.

(** A length as a number. *)
Definition of_nat (n : nat) : value := VNum (inject_Z (Z.of_nat n)).

(** ToBoolean *)
Definition truthy (v : value) : bool :=
  match v with
  | VUndefined | VNull => false
  | VBool b => b
  | VNum n => negb (Qeq_bool n 0)
  | VStr s => 0 <? String.length s
  | VArr _ | VObj _ => true
  end.

(** [a || b] *)
Definition js_or (a b : value) : value := if truthy a then a else b.

(** ** Exceptions and the error monad *)

Inductive exn : Type :=
| Error (message : string)
| TypeError (message : string).

Definition message (e : exn) : string :=
  match e with
  | Error m => m
  | TypeError m => m
  end.

Inductive result (A : Type) : Type :=
| Returned (a : A)
| Thrown (e : exn).
Arguments Returned {A} a.
Arguments Thrown {A} e.

Definition ret {A : Type} (a : A) : result A := Returned a.
Definition throw {A : Type} (e : exn) : result A := Thrown e.

Definition bind {A B : Type} (m : result A) (k : A -> result B) : result B :=
  match m with
  | Returned a => k a
  | Thrown e => Thrown e
  end.

(** [try { body } catch (error) { handler(error) }] *)
Definition try_catch {A : Type} (body : result A) (handler : exn -> result A)
  : result A :=
  match body with
  | Returned a => Returned a
  | Thrown e => handler e
  end.

(** [Array.prototype.map] with a callback that may throw: elements are
    visited left to right and the first exception escapes. *)
Fixpoint mapM {A B : Type} (f : A -> result B) (l : list A) : result (list B) :=
  match l with
  | [] => Returned []
  | x :: rest =>
      bind (f x) (fun y => bind (mapM f rest) (fun ys => Returned (y :: ys)))
  end.

(** [Array.prototype.filter] with a predicate that may throw. *)
Fixpoint filterM {A : Type} (f : A -> result bool) (l : list A) : result (list A) :=
  match l with
  | [] => Returned []
  | x :: rest =>
      bind (f x) (fun keep =>
      bind (filterM f rest) (fun ys => Returned (if keep then x :: ys else ys)))
  end.

(** The engine's wording of the two type errors the code can provoke. *)
Definition type_name (v : value) : string :=
  match v with
  | VNull => "null"
  | _ => "undefined"
  end.

Definition cannot_read (base : value) (prop : string) : exn :=
  TypeError ("Cannot read properties of " ++ type_name base ++
             " (reading '" ++ prop ++ "')").

Definition not_a_function (expr : string) : exn :=
  TypeError (expr ++ " is not a function").

(** [const { prop, ... } = base]: destructuring [undefined] or [null]
    throws, otherwise each name is read as a property. *)
Definition cannot_destructure (base : value) (prop expr : string) : exn :=
  TypeError ("Cannot destructure property '" ++ prop ++ "' of '" ++ expr ++
             "' as it is " ++ type_name base ++ ".").

(** [base.prop] for a data property: reading from [undefined] or [null]
    throws; strings and arrays have a [length]; anything not found is
    [undefined]. *)
Definition member (base : value) (prop : string) : result value :=
  match base with
  | VUndefined | VNull => throw (cannot_read base prop)
  | VObj props => ret (field prop props)
  | VStr s => ret (if String.eqb prop "length" then of_nat (String.length s) else VUndefined)
  | VArr l => ret (if String.eqb prop "length" then of_nat (List.length l) else VUndefined)
  | VBool _ | VNum _ => ret VUndefined
  end.

Definition destructure (expr : string) (base : value) (prop : string)
  : result value :=
  match base with
  | VUndefined | VNull => throw (cannot_destructure base prop expr)
  | _ => member base prop
  end.

(** [recv.toLowerCase()]; [expr] is the source text of the callee. *)
Definition call_toLowerCase (expr : string) (recv : value) : result string :=
  match recv with
  | VStr s => ret (toLowerCase s)
  | VUndefined | VNull => throw (cannot_read recv "toLowerCase")
  | _ => throw (not_a_function expr)
  end.

(** [recv.map(f)] / [recv.filter(f)]: only arrays have the method. *)
Definition as_array (method expr : string) (recv : value) : result (list value) :=
  match recv with
  | VArr l => ret l
  | VUndefined | VNull => throw (cannot_read recv method)
  | _ => throw (not_a_function expr)
  end.

(** [recv.slice(0, n)]: arrays and strings have the method. *)
Definition call_slice0 (expr : string) (n : nat) (recv : value) : result value :=
  match recv with
  | VArr l => ret (VArr (slice 0 n l))
  | VStr s => ret (VStr (substring0 n s))
  | VUndefined | VNull => throw (cannot_read recv "slice")
  | _ => throw (not_a_function expr)
  end.

(** ** Coercions *)

(** The conversion of an object to a primitive value calls the methods
    [toString] and [valueOf] of the object.  Parsed JSON holds no function:
    an object with an own property [toString] has no callable [toString],
    the inherited [valueOf] returns the object itself, and the conversion
    throws.  Every other object is printed by [Object.prototype.toString];
    an array is printed by [Array.prototype.join], which converts the
    elements in turn. *)
Definition cannot_convert : exn :=
  TypeError "Cannot convert object to primitive value".

(** Whether the conversion of a value to a primitive value returns. *)
Fixpoint printable (v : value) : bool :=
  match v with
  | VObj props =>
      match lookup "toString" props with
      | Some _ => false
      | None => true
      end
  | VArr l => forallb printable l
  | _ => true
  end.

(** The engine's conversions between numbers and text. *)
Class NumberOps : Type := {
  Number_toString : Q -> string;          (* String(n) *)
  Number_toFixed : Q -> nat -> string;    (* n.toFixed(digits) *)
  StringToNumber : string -> option Q     (* Number(s); [None] is NaN *)
}.

Section Coercions.
Context {ops : NumberOps}.

(** The text of a value whose conversion returns.  An array prints its
    elements separated by commas, with [null] and [undefined] elements
    printed as nothing. *)
Fixpoint render (v : value) : string :=
  match v with
  | VUndefined => "undefined"
  | VNull => "null"
  | VBool true => "true"
  | VBool false => "false"
  | VNum n => Number_toString n
  | VStr s => s
  | VArr l =>
      join "," (map (fun x => match x with
                              | VUndefined | VNull => ""
                              | _ => render x
                              end) l)
  | VObj _ => "[object Object]"
  end.

(** ToString, as applied by template literals and string concatenation. *)
Definition ToString (v : value) : result string :=
  if printable v then ret (render v) else throw cannot_convert.

(** How [Array.prototype.join] prints one element. *)
Definition join_elem (x : value) : result string :=
  match x with
  | VUndefined | VNull => ret ""
  | _ => ToString x
  end.

(** [recv.join(sep)] on an array: the elements are converted from left to
    right, then concatenated. *)
Definition call_join (sep : string) (l : list value) : result string :=
  bind (mapM join_elem l) (fun items => ret (join sep items)).

(** The number of a value whose conversion returns; [None] is NaN. *)
Definition number_of (v : value) : option Q :=
  match v with
  | VUndefined => None
  | VNull => Some 0%Q
  | VBool true => Some 1%Q
  | VBool false => Some 0%Q
  | VNum n => Some n
  | VStr s => StringToNumber s
  | VArr _ | VObj _ => StringToNumber (render v)
  end.

(** ToNumber *)
Definition ToNumber (v : value) : result (option Q) :=
  if printable v then ret (number_of v) else throw cannot_convert.

(** [v > n] for a constant natural number [n]. *)
Definition gt (v : value) (n : nat) : result bool :=
  bind (ToNumber v) (fun q =>
  ret match q with
      | Some q => negb (Qle_bool q (inject_Z (Z.of_nat n)))
      | None => false
      end).

(** [v && v.length > n], as the condition of an [if] or of [?:]. *)
Definition longer_than (v : value) (n : nat) : result bool :=
  if truthy v then bind (member v "length") (fun len => gt len n)
  else ret false.

(** [recv.toFixed(digits)] *)
Definition call_toFixed (expr : string) (recv : value) (digits : nat)
  : result string :=
  match recv with
  | VNum n => ret (Number_toFixed n digits)
  | VUndefined | VNull => throw (cannot_read recv "toFixed")
  | _ => throw (not_a_function expr)
  end.

End Coercions.

(** [JSON.stringify(v, null, 2)] on parsed JSON data returns: the data has
    no [toJSON] method, no getter and no cycle, and no object is converted
    to a primitive value.  The text is only written to the log, so only the
    fact that the call returns is kept. *)
Definition JSON_stringify (v : value) : result unit := ret tt.

(** [String(n)] for an array length. *)
Definition nat_to_string (n : nat) : string :=
  NilEmpty.string_of_uint (Nat.to_uint n).

End JS.

Export JS.

Declare Scope js_scope.
Notation "x <- m ;; k" := (bind m (fun x => k))
  (at level 61, m at next level, right associativity) : js_scope.
Local Open Scope js_scope.

(* ================================================================== *)
(** * The data model *)

Record Label : Type := {
  description : string;
  score : Q
}.

Record LocalizedObject : Type := {
  name : string;
  objectScore : Q;          (* the field [score] of an object *)
  boundingPoly : value
}.

Record AnalysisResult : Type := {
  labels : list Label;
  text : string;
  objects : list LocalizedObject
}.

(** The same data as the JavaScript objects the program passes around. *)
Definition value_of_label (l : Label) : value :=
  VObj [("description", VStr (description l)); ("score", VNum (score l))].

Definition value_of_object (o : LocalizedObject) : value :=
  VObj [("name", VStr (name o)); ("score", VNum (objectScore o));
        ("boundingPoly", boundingPoly o)].

Definition value_of_analysis (a : AnalysisResult) : value :=
  VObj [("labels", VArr (map value_of_label (labels a)));
        ("text", VStr (text a));
        ("objects", VArr (map value_of_object (objects a)))].

(** The object [{ completion: ... }] returned by the synthesizer. *)
Record Completion : Type := { completion : string }.

(** What the synthesizer observes of the [text] field: the two tests
    [text && text.length > 0] and [... && text.length > 10], and the text as
    a template literal prints it. *)
Record TextView : Type := {
  text_present : bool;
  text_substantial : bool;
  text_shown : string
}.

Definition value_of_completion (c : Completion) : value :=
  VObj [("completion", VStr (completion c))].

Definition view_of_text (t : string) : TextView :=
  {| text_present := 0 <? String.length t;
     text_substantial := (0 <? String.length t) && (10 <? String.length t);
     text_shown := t |}.

(* ================================================================== *)
(** * [OraAction]: the response synthesizer (actions/oraAction.js) *)

Module OraAction.

(** The constant [luxuryItems] of [generateResponse]. *)
Definition luxuryItems : list string :=
  [ "watch"; "analog watch"; "timepiece"; "wristwatch"; "chronograph"; "rolex";
    "omega"; "patek philippe";
    "jewelry"; "ring"; "necklace"; "bracelet"; "diamond"; "gold"; "silver";
    "platinum";
    "sneakers"; "shoes"; "nike"; "adidas"; "jordan"; "yeezy"; "designer";
    "luxury"; "fashion";
    "handbag"; "purse"; "wallet"; "louis vuitton"; "gucci"; "prada"; "chanel";
    "hermes" ].

(** [allEntities.filter(item => luxuryItems.includes(item))] *)
Definition detectLuxury (allEntities : list string) : list string :=
  filter (fun item => Array_includes luxuryItems item) allEntities.

(** The condition of the first [if]: a luxury keyword among the entities,
    or a main label containing "watch", "jewelry" or "fashion". *)
Definition luxuryCondition (detectedLuxuryItems mainLabels : list string) : bool :=
  (0 <? List.length detectedLuxuryItems) ||
  existsb (fun label => includes label "watch" || includes label "jewelry" ||
                        includes label "fashion") mainLabels.

(** The condition of the nested watch test. *)
Definition watchCondition (mainLabels mainObjects : list string) : bool :=
  Array_includes mainLabels "watch" || Array_includes mainLabels "analog watch" ||
  Array_includes mainObjects "watch" || Array_includes mainObjects "analog watch".

(** The predicate of the [labels.filter] that computes [watchDetails],
    applied to a lower-cased description. *)
Definition notWatchName (lowered : string) : bool :=
  negb (Array_includes ["watch"; "analog watch"] lowered).

Definition watchCompletion (watchDetails : list string) : Completion :=
  {| completion :=
       "This image shows a luxury timepiece. It appears to be an analog watch with the following characteristics: "
       ++ join ", " watchDetails ++
       ". Watches like this are precision instruments that combine craftsmanship with functionality, often serving as both a practical tool and a fashion statement or collectible item." |}.

Definition luxuryCompletion (detectedLuxuryItems mainLabels : list string)
  : Completion :=
  {| completion :=
       "This image shows a luxury collectible item: "
       ++ join ", " detectedLuxuryItems ++ ". The item features "
       ++ join ", " (slice 0 3 mainLabels) ++
       " design elements. Luxury items like this are often valued for their craftsmanship, brand prestige, and aesthetic appeal, making them desirable collectibles." |}.

(** ** The query tests, in the order of the [else if] chain *)

Definition asksAnimal (queryLower : string) : bool :=
  includes queryLower "animal" || includes queryLower "pet".

Definition asksObject (queryLower : string) : bool :=
  includes queryLower "object" || includes queryLower "thing" ||
  includes queryLower "what is" || includes queryLower "what's in" ||
  includes queryLower "show me".

Definition asksColor (queryLower : string) : bool :=
  includes queryLower "color" || includes queryLower "colour".

Definition asksText (queryLower : string) : bool :=
  includes queryLower "text" || includes queryLower "say" ||
  includes queryLower "write" || includes queryLower "read".

Definition asksLocation (queryLower : string) : bool :=
  includes queryLower "where" || includes queryLower "location".

(** ** The bodies of the branches *)

Definition animalCategories : list string := ["animal"; "mammal"; "wildlife"].

(** "Animal identification" *)
Definition animalBranch (mainLabels allEntities : list string) : Completion :=
  if Array_includes allEntities "cat" then
    {| completion := "The image shows a cat. Cats are domestic felines known for their independent nature and grooming habits. They are popular pets worldwide." |}
  else if Array_includes allEntities "dog" then
    {| completion := "The image shows a dog. Dogs are domesticated mammals known for their loyalty and companionship. They are one of the most popular pets globally." |}
  else if existsb (fun label => Array_includes animalCategories label) mainLabels then
    let animalType :=
      find (fun label => negb (Array_includes animalCategories label)) mainLabels in
    {| completion :=
         "The image appears to show a " ++ or_else animalType "wild animal" ++
         ". I can see characteristics typical of " ++ or_else animalType "wildlife" ++
         " in the image." |}
  else
    {| completion :=
         "I don't see any animals in this image. The image appears to show " ++
         if_truthy (first mainLabels) (fun l => "a " ++ l) "a scene without animals"
         ++ "." |}.

(** "Object identification"; [objectNames] is [objects.map(o => o.name)]. *)
Definition objectBranch (mainLabels detectedLuxuryItems objectNames : list string)
  (tv : TextView) : Completion :=
  if 0 <? List.length objectNames then
    let objectsList := join ", " objectNames in
    if 0 <? List.length detectedLuxuryItems then
      {| completion :=
           "The main object in this image is a luxury item: " ++ objectsList ++
           ". It features " ++ join ", " (slice 0 3 mainLabels) ++
           " design elements. This appears to be a high-quality collectible item." |}
    else
      {| completion :=
           "The main objects in this image are: " ++ objectsList ++
           ". The image primarily shows " ++ or_else (first mainLabels) "a scene" ++
           " with " ++ nat_to_string (List.length objectNames) ++ " identifiable objects." |}
  else if 0 <? List.length mainLabels then
    {| completion :=
         "This image shows " ++ show (first mainLabels) ++
         " with features including " ++ join ", " (slice 1 4 mainLabels) ++ ". " ++
         (if text_present tv
          then "There is also text visible: " ++ dquote ++ text_shown tv ++ dquote ++ "."
          else "") |}
  else
    {| completion := "The image doesn't contain clearly defined objects. It appears to be a scene." |}.

Definition colorNames : list string :=
  [ "red"; "blue"; "green"; "yellow"; "black"; "white"; "purple"; "orange";
    "pink"; "brown"; "gray"; "grey"; "silver"; "gold" ].

(** "Color queries" *)
Definition colorBranch (mainLabels mainObjects : list string) : Completion :=
  let colorLabels := filter (fun label => Array_includes colorNames label) mainLabels in
  if 0 <? List.length colorLabels then
    {| completion :=
         "The dominant colors in this image appear to be " ++ join ", " colorLabels ++ "." |}
  else if Array_includes mainLabels "sky" || Array_includes mainObjects "sky" then
    {| completion := "The image contains sky which appears blue, and likely has other natural colors typical of an outdoor scene." |}
  else if Array_includes mainLabels "landscape" || Array_includes mainLabels "nature" then
    {| completion := "The image shows a natural landscape with typical earth tones, greens from vegetation, and blues from the sky." |}
  else
    {| completion :=
         "I cannot specifically identify the colors in this image, but it appears to show " ++
         if_truthy (first mainLabels) (fun l => "a " ++ l) "a scene" ++
         " with its typical coloration." |}.

(** "Text content" *)
Definition textBranch (tv : TextView) : Completion :=
  if text_present tv then
    {| completion := "The text in the image reads: " ++ dquote ++ text_shown tv ++ dquote |}
  else
    {| completion := "There is no visible text in this image." |}.

(** "Location queries" *)
Definition locationBranch (mainLabels : list string) : Completion :=
  if Array_includes mainLabels "landscape" || Array_includes mainLabels "nature" ||
     Array_includes mainLabels "outdoor" then
    {| completion :=
         "This appears to be an outdoor natural setting. Based on the visible elements like " ++
         (if Array_includes mainLabels "tree" then "trees" else "natural features") ++
         ", it's likely a park, forest, or natural landscape area." |}
  else if Array_includes mainLabels "indoor" || Array_includes mainLabels "room" then
    {| completion :=
         "This appears to be an indoor setting, possibly a " ++
         (if Array_includes mainLabels "kitchen" then "kitchen"
          else if Array_includes mainLabels "bedroom" then "bedroom"
          else if Array_includes mainLabels "office" then "office"
          else "room or building interior") ++ "." |}
  else if Array_includes mainLabels "urban" || Array_includes mainLabels "city" then
    {| completion := "This appears to be an urban setting, possibly in a city or town environment." |}
  else
    {| completion :=
         "I cannot determine the specific location from this image. It appears to show " ++
         if_truthy (first mainLabels) (fun l => "a " ++ l) "a scene" ++ "." |}.

(** The text that follows the generic sentences of the default branch. *)
Definition textSuffix (tv : TextView) : string :=
  if text_present tv
  then "There is also some text visible: " ++ dquote ++ text_shown tv ++ dquote ++ "."
  else "".

(** "Other specific categories": the part of the default branch after
    its luxury re-check. *)
Definition categoryBranch (mainLabels mainObjects objectNames : list string)
  (tv : TextView) : Completion :=
  if Array_includes mainLabels "cat" || Array_includes mainObjects "cat" then
    {| completion := "This image shows a cat. It appears to be a domestic feline, commonly kept as a pet. Cats are known for their independent nature, agility, and grooming habits." |}
  else if Array_includes mainLabels "dog" || Array_includes mainObjects "dog" then
    {| completion := "This image shows a dog. Dogs are domesticated mammals that have been bred for various tasks such as hunting, herding, protection, and companionship." |}
  else if Array_includes mainLabels "person" || Array_includes mainObjects "person" then
    {| completion := "This image shows a person. I can see a human figure in the frame, though I cannot identify specific individuals." |}
  else if Array_includes mainLabels "food" || Array_includes mainObjects "food" then
    {| completion := "This image shows food. It appears to be a prepared dish or meal, though I cannot identify the specific cuisine or ingredients in detail." |}
  else if Array_includes mainLabels "car" || Array_includes mainObjects "car" then
    {| completion := "This image shows a car. It's a motor vehicle designed for transportation on roads, typically with four wheels." |}
  else if text_substantial tv then
    {| completion :=
         "This image contains text that reads: " ++ dquote ++ text_shown tv ++ dquote ++
         ". It appears to be a document or text-containing image." |}
  else if Array_includes mainLabels "landscape" || Array_includes mainLabels "nature" then
    {| completion := "This image depicts a landscape photo featuring trees and sky with clouds. It's a natural outdoor scene showing elements of nature." |}
  else
    let topLabels :=
      filter (fun l => 0 <? String.length l) (slice 0 5 mainLabels) in
    if 0 <? List.length objectNames then
      {| completion :=
           "This image shows " ++ join ", " objectNames ++
           ". The key features include " ++ join ", " topLabels ++ ". " ++
           textSuffix tv |}
    else if 0 <? List.length topLabels then
      {| completion :=
           "This image shows " ++ show (first topLabels) ++
           " with features including " ++ join ", " (slice_from 1 topLabels) ++ ". " ++
           textSuffix tv |}
    else
      {| completion := "This image doesn't contain clearly identifiable objects or features that I can describe with confidence." |}.

(** ** [generateResponse] on a well-formed [AnalysisResult] *)

Definition mainLabels (imageAnalysis : AnalysisResult) : list string :=
  map (fun l => toLowerCase (description l)) (slice 0 5 (labels imageAnalysis)).

Definition mainObjects (imageAnalysis : AnalysisResult) : list string :=
  map (fun o => toLowerCase (name o)) (objects imageAnalysis).

Definition allEntities (imageAnalysis : AnalysisResult) : list string :=
  (mainLabels imageAnalysis ++ mainObjects imageAnalysis)%list.

Definition detectedLuxuryItems (imageAnalysis : AnalysisResult) : list string :=
  detectLuxury (allEntities imageAnalysis).

(** [labels.filter(l => !['watch', 'analog watch'].includes(
       l.description.toLowerCase())).slice(0, 5).map(l => l.description)] *)
Definition watchDetails (imageAnalysis : AnalysisResult) : list string :=
  map description
    (slice 0 5
       (filter (fun l => notWatchName (toLowerCase (description l)))
          (labels imageAnalysis))).

Definition generateResponse (imageAnalysis : AnalysisResult)
  (query contextString : string) : Completion :=
  let mainLabels := mainLabels imageAnalysis in
  let mainObjects := mainObjects imageAnalysis in
  let allEntities := allEntities imageAnalysis in
  let objectNames := map name (objects imageAnalysis) in
  let tv := view_of_text (text imageAnalysis) in
  let queryLower := toLowerCase query in
  let detectedLuxuryItems := detectedLuxuryItems imageAnalysis in
  if luxuryCondition detectedLuxuryItems mainLabels then
    if watchCondition mainLabels mainObjects then
      watchCompletion (watchDetails imageAnalysis)
    else
      luxuryCompletion detectedLuxuryItems mainLabels
  else if asksAnimal queryLower then
    animalBranch mainLabels allEntities
  else if asksObject queryLower then
    objectBranch mainLabels detectedLuxuryItems objectNames tv
  else if asksColor queryLower then
    colorBranch mainLabels mainObjects
  else if asksText queryLower then
    textBranch tv
  else if asksLocation queryLower then
    locationBranch mainLabels
  else
    if 0 <? List.length detectedLuxuryItems then
      if watchCondition mainLabels mainObjects then
        watchCompletion (watchDetails imageAnalysis)
      else
        luxuryCompletion detectedLuxuryItems mainLabels
    else
      categoryBranch mainLabels mainObjects objectNames tv.

(** ** The same code on arbitrary parsed JSON *)

Section Untyped.
Context {ops : NumberOps}.

(** [prepareContextString(imageAnalysis)] *)
Definition prepareContextString (imageAnalysis : value) : result string :=
  labels <- destructure "imageAnalysis" imageAnalysis "labels" ;;
  objects <- destructure "imageAnalysis" imageAnalysis "objects" ;;
  text <- destructure "imageAnalysis" imageAnalysis "text" ;;
  let context := "Image Analysis Results:" ++ newline in
  (* Add labels *)
  hasLabels <- longer_than labels 0 ;;
  context <-
    (if hasLabels then
       arr <- as_array "map" "labels.map" labels ;;
       items <- mapM (fun label =>
                  d <- member label "description" ;;
                  d <- ToString d ;;
                  s <- member label "score" ;;
                  f <- call_toFixed "label.score.toFixed" s 2 ;;
                  ret (d ++ " (confidence: " ++ f ++ ")")) arr ;;
       ret (context ++ "Labels: " ++ join ", " items ++ newline)
     else ret context) ;;
  (* Add text *)
  hasText <- longer_than text 0 ;;
  context <-
    (if hasText then
       shown <- ToString text ;;
       ret (context ++ "Text detected: " ++ shown ++ newline)
     else ret (context ++ "Text detected: None" ++ newline)) ;;
  (* Add objects *)
  hasObjects <- longer_than objects 0 ;;
  context <-
    (if hasObjects then
       arr <- as_array "map" "objects.map" objects ;;
       items <- mapM (fun object =>
                  n <- member object "name" ;;
                  n <- ToString n ;;
                  s <- member object "score" ;;
                  f <- call_toFixed "object.score.toFixed" s 2 ;;
                  ret (n ++ " (confidence: " ++ f ++ ")")) arr ;;
       ret (context ++ "Objects: " ++ join ", " items ++ newline)
     else ret context) ;;
  ret context.

(** The watch sentence: [labels.filter(...).slice(0, 5).map(l =>
    l.description)] is computed and joined inside the template. *)
Definition watchCompletionOf (labels : value) : result Completion :=
  arr <- as_array "filter" "labels.filter" labels ;;
  kept <- filterM (fun l =>
            d <- member l "description" ;;
            lowered <- call_toLowerCase "l.description.toLowerCase" d ;;
            ret (notWatchName lowered)) arr ;;
  watchDetails <- mapM (fun l => member l "description") (slice 0 5 kept) ;;
  (* watchDetails.join(', ') converts the entries; the template joins them *)
  watchDetails <- mapM join_elem watchDetails ;;
  ret (watchCompletion watchDetails).

(** [`...${text}...`] guarded by [text && text.length > 0 ? ... : ''] *)
Definition textClause (text : value) (opening : string) : result string :=
  present <- longer_than text 0 ;;
  if present then
    shown <- ToString text ;;
    ret (opening ++ dquote ++ shown ++ dquote ++ ".")
  else ret "".

(** "Object identification"; [objects] is the array of the analysis. *)
Definition objectBranchOf (mainLabels detectedLuxuryItems : list string)
  (objects : list value) (text : value) : result Completion :=
  if 0 <? List.length objects then
    names <- mapM (fun o => member o "name") objects ;;
    objectsList <- call_join ", " names ;;
    if 0 <? List.length detectedLuxuryItems then
      ret {| completion :=
               "The main object in this image is a luxury item: " ++ objectsList ++
               ". It features " ++ join ", " (slice 0 3 mainLabels) ++
               " design elements. This appears to be a high-quality collectible item." |}
    else
      ret {| completion :=
               "The main objects in this image are: " ++ objectsList ++
               ". The image primarily shows " ++ or_else (first mainLabels) "a scene" ++
               " with " ++ nat_to_string (List.length objects) ++ " identifiable objects." |}
  else if 0 <? List.length mainLabels then
    clause <- textClause text "There is also text visible: " ;;
    ret {| completion :=
             "This image shows " ++ show (first mainLabels) ++
             " with features including " ++ join ", " (slice 1 4 mainLabels) ++ ". " ++
             clause |}
  else
    ret {| completion := "The image doesn't contain clearly defined objects. It appears to be a scene." |}.

(** "Text content" *)
Definition textBranchOf (text : value) : result Completion :=
  present <- longer_than text 0 ;;
  if present then
    shown <- ToString text ;;
    ret {| completion := "The text in the image reads: " ++ dquote ++ shown ++ dquote |}
  else
    ret {| completion := "There is no visible text in this image." |}.

(** "Other specific categories" *)
Definition categoryBranchOf (mainLabels mainObjects : list string)
  (objects : list value) (text : value) : result Completion :=
  if Array_includes mainLabels "cat" || Array_includes mainObjects "cat" then
    ret {| completion := "This image shows a cat. It appears to be a domestic feline, commonly kept as a pet. Cats are known for their independent nature, agility, and grooming habits." |}
  else if Array_includes mainLabels "dog" || Array_includes mainObjects "dog" then
    ret {| completion := "This image shows a dog. Dogs are domesticated mammals that have been bred for various tasks such as hunting, herding, protection, and companionship." |}
  else if Array_includes mainLabels "person" || Array_includes mainObjects "person" then
    ret {| completion := "This image shows a person. I can see a human figure in the frame, though I cannot identify specific individuals." |}
  else if Array_includes mainLabels "food" || Array_includes mainObjects "food" then
    ret {| completion := "This image shows food. It appears to be a prepared dish or meal, though I cannot identify the specific cuisine or ingredients in detail." |}
  else if Array_includes mainLabels "car" || Array_includes mainObjects "car" then
    ret {| completion := "This image shows a car. It's a motor vehicle designed for transportation on roads, typically with four wheels." |}
  else
    (* text && text.length > 0 && text.length > 10 *)
    present <- longer_than text 0 ;;
    substantial <- (if present then longer_than text 10 else ret false) ;;
    if substantial then
      shown <- ToString text ;;
      ret {| completion :=
               "This image contains text that reads: " ++ dquote ++ shown ++ dquote ++
               ". It appears to be a document or text-containing image." |}
    else if Array_includes mainLabels "landscape" || Array_includes mainLabels "nature" then
      ret {| completion := "This image depicts a landscape photo featuring trees and sky with clouds. It's a natural outdoor scene showing elements of nature." |}
    else
      let topLabels :=
        filter (fun l => 0 <? String.length l) (slice 0 5 mainLabels) in
      if 0 <? List.length objects then
        names <- mapM (fun o => member o "name") objects ;;
        objectsList <- call_join ", " names ;;
        clause <- textClause text "There is also some text visible: " ;;
        ret {| completion :=
                 "This image shows " ++ objectsList ++
                 ". The key features include " ++ join ", " topLabels ++ ". " ++
                 clause |}
      else if 0 <? List.length topLabels then
        clause <- textClause text "There is also some text visible: " ;;
        ret {| completion :=
                 "This image shows " ++ show (first topLabels) ++
                 " with features including " ++ join ", " (slice_from 1 topLabels) ++ ". " ++
                 clause |}
      else
        ret {| completion := "This image doesn't contain clearly identifiable objects or features that I can describe with confidence." |}.

(** [generateResponse(imageAnalysis, query, contextString)] *)
Definition generateResponseOf (imageAnalysis query contextString : value)
  : result Completion :=
  labels <- destructure "imageAnalysis" imageAnalysis "labels" ;;
  objects <- destructure "imageAnalysis" imageAnalysis "objects" ;;
  text <- destructure "imageAnalysis" imageAnalysis "text" ;;
  (* Extract the main subjects from the image *)
  top <- call_slice0 "labels.slice" 5 labels ;;
  top <- as_array "map" "labels.slice(...).map" top ;;
  mainLabels <- mapM (fun l =>
                  d <- member l "description" ;;
                  call_toLowerCase "l.description.toLowerCase" d) top ;;
  objs <- as_array "map" "objects.map" objects ;;
  mainObjects <- mapM (fun o =>
                   n <- member o "name" ;;
                   call_toLowerCase "o.name.toLowerCase" n) objs ;;
  let allEntities := (mainLabels ++ mainObjects)%list in
  queryLower <- call_toLowerCase "query.toLowerCase" query ;;
  let detectedLuxuryItems := detectLuxury allEntities in
  if luxuryCondition detectedLuxuryItems mainLabels then
    if watchCondition mainLabels mainObjects then
      watchCompletionOf labels
    else
      ret (luxuryCompletion detectedLuxuryItems mainLabels)
  else if asksAnimal queryLower then
    ret (animalBranch mainLabels allEntities)
  else if asksObject queryLower then
    objectBranchOf mainLabels detectedLuxuryItems objs text
  else if asksColor queryLower then
    ret (colorBranch mainLabels mainObjects)
  else if asksText queryLower then
    textBranchOf text
  else if asksLocation queryLower then
    ret (locationBranch mainLabels)
  else
    if 0 <? List.length detectedLuxuryItems then
      if watchCondition mainLabels mainObjects then
        watchCompletionOf labels
      else
        ret (luxuryCompletion detectedLuxuryItems mainLabels)
    else
      categoryBranchOf mainLabels mainObjects objs text.

(** The object returned by the [catch] clause of [execute]. *)
Definition error_object (error : exn) : value :=
  VObj [("error", VBool true);
        ("message", VStr ("Failed to query ORA API: " ++ message error))].

(** [execute(parameters)].  The destructuring of [parameters] and the two
    logging statements precede the [try]: the first prints the query inside
    a template literal, the second prints [JSON.stringify(imageAnalysis,
    null, 2)]. *)
Definition execute (parameters : value) : result value :=
  imageAnalysis <- destructure "parameters" parameters "imageAnalysis" ;;
  query <- destructure "parameters" parameters "query" ;;
  _ <- ToString query ;;
  _ <- JSON_stringify imageAnalysis ;;
  try_catch
    (contextString <- prepareContextString imageAnalysis ;;
     response <- generateResponseOf imageAnalysis query (VStr contextString) ;;
     ret (value_of_completion response))
    (fun error => ret (error_object error)).

End Untyped.

End OraAction.

(* ================================================================== *)
(** * [GoogleVisionClient]: the vision adapter
      (services/googleVisionService.js) *)

Module GoogleVisionClient.

(** ** The external annotation service *)

(** The [image] field of an annotation request: inline content (the text
    after the first comma of a data URI, [undefined] if there is no comma)
    or a URI to fetch. *)
Inductive Image : Type :=
| Content (base64Data : option string)
| Source (imageUri : string).

Record AnnotateRequest : Type := {
  image : Image;
  features : list value          (* the objects [{ type: feature }] *)
}.

(** One annotation response, with the fields the adapter reads. *)
Record AnnotateImageResponse : Type := {
  labelAnnotations : option (list Label);
  fullTextAnnotation : option string;             (* its [text] *)
  localizedObjectAnnotations : option (list LocalizedObject);
  error : option string                           (* its [message] *)
}.

(** What awaiting [client.annotateImage(request)] yields: the promise
    resolves to an array of responses or rejects. *)
Inductive Outcome : Type :=
| Resolves (responses : list AnnotateImageResponse)
| Rejects (e : exn).

(** [this.client]: the service, or [undefined] when the constructor found
    no key file or failed to build the client. *)
Definition Client : Type := option (AnnotateRequest -> Outcome).

Definition await (o : Outcome) : result (list AnnotateImageResponse) :=
  match o with
  | Resolves responses => ret responses
  | Rejects e => throw e
  end.

(** ** The canned results of [getMockResponse] *)

Definition box (x0 y0 x1 y1 : Q) : value :=
  let vertex x y := VObj [("x", VNum x); ("y", VNum y)] in
  VObj [("vertices", VArr [vertex x0 y0; vertex x1 y0; vertex x1 y1; vertex x0 y1])].

Definition personFixture : AnalysisResult :=
  {| labels := [ {| description := "Person"; score := 0.98%Q |};
                 {| description := "Human"; score := 0.97%Q |};
                 {| description := "Face"; score := 0.95%Q |};
                 {| description := "Portrait"; score := 0.92%Q |};
                 {| description := "Photography"; score := 0.90%Q |} ];
     text := "";
     objects := [ {| name := "Person"; objectScore := 0.98%Q;
                     boundingPoly := box 100 50 500 700 |};
                  {| name := "Face"; objectScore := 0.95%Q;
                     boundingPoly := box 200 100 400 300 |} ] |}.

Definition genericFixture : AnalysisResult :=
  {| labels := [ {| description := "Object"; score := 0.90%Q |};
                 {| description := "Item"; score := 0.85%Q |};
                 {| description := "Product"; score := 0.80%Q |};
                 {| description := "Artifact"; score := 0.75%Q |};
                 {| description := "Material"; score := 0.70%Q |} ];
     text := "";
     objects := [ {| name := "Object"; objectScore := 0.90%Q;
                     boundingPoly := box 150 150 450 450 |} ] |}.

Definition landscapeFixture : AnalysisResult :=
  {| labels := [ {| description := "Sky"; score := 0.95%Q |};
                 {| description := "Cloud"; score := 0.92%Q |};
                 {| description := "Tree"; score := 0.87%Q |};
                 {| description := "Nature"; score := 0.85%Q |};
                 {| description := "Landscape"; score := 0.82%Q |} ];
     text := "";
     objects := [ {| name := "Tree"; objectScore := 0.87%Q;
                     boundingPoly := box 10 10 100 200 |};
                  {| name := "Sky"; objectScore := 0.95%Q;
                     boundingPoly := box 0 0 800 300 |} ] |}.

(** The base64 text that marks the person test image. *)
Definition personSignature : string :=
  "/9j/4AAQSkZJRgABAQAAAQABAAD/2wCEAAkGBxISEBMQEhIWFhEQFxUZEhgSFhcYEhATGhUXGRcRFhUY".

(** [getMockResponse(imageUrl)].  The Unsplash image id that the function
    extracts first is only written to the log. *)
Definition getMockResponse (imageUrl : string) : AnalysisResult :=
  if startsWith imageUrl "data:image/" then
    if includes imageUrl personSignature then personFixture
    else genericFixture
  else landscapeFixture.

(** ** [analyzeImage] *)

Definition defaultFeatureList : list value :=
  [VStr "LABEL_DETECTION"; VStr "TEXT_DETECTION"; VStr "OBJECT_LOCALIZATION"].

Definition defaultFeatures : value := VArr defaultFeatureList.

(** [x?.map(copy) || []] where [copy] rebuilds each entry from the fields
    the entry already has. *)
Definition annotations {A : Type} (x : option (list A)) : list A :=
  match x with
  | Some l => l
  | None => []
  end.

(** The object [processedResult] built from a response. *)
Definition processedResult (result : AnnotateImageResponse) : AnalysisResult :=
  {| labels := annotations (labelAnnotations result);
     text := match fullTextAnnotation result with
             | Some t => t
             | None => ""
             end;
     objects := annotations (localizedObjectAnnotations result) |}.

(** [features.join(', ')]: only arrays have the method, and it converts
    every element to a string.  The joined text is only written to the log,
    so only the exception is kept: the conversion of an element throws
    exactly when the element is not [printable]. *)
Definition call_features_join (features : value) : result unit :=
  requested <- as_array "join" "features.join" features ;;
  if forallb printable requested then ret tt else throw cannot_convert.

(** [analyzeImage(imageUrl, features = [...])] for a string [imageUrl].
    The two logging statements before the [try] call [imageUrl.substring]
    and [features.join]. *)
Definition analyzeImage (client : Client) (imageUrl : string) (features : value)
  : result AnalysisResult :=
  let features := match features with VUndefined => defaultFeatures | _ => features end in
  _ <- call_features_join features ;;
  try_catch
    ((* Check if the client is initialized *)
     annotateImage <- match client with
                      | Some c => ret c
                      | None => throw (Error "Google Vision client not initialized")
                      end ;;
     (* Handle base64 or URL *)
     let image :=
       if startsWith imageUrl "data:image/"
       then Content (split_second "," imageUrl)
       else Source imageUrl in
     (* Convert feature strings to proper format *)
     requested <- as_array "map" "features.map" features ;;
     let featureRequests := map (fun feature => VObj [("type", feature)]) requested in
     (* Make the actual API call *)
     responses <- await (annotateImage {| image := image; features := featureRequests |}) ;;
     result <- match responses with
               | r :: _ => ret r
               | [] => throw (cannot_read VUndefined "labelAnnotations")
               end ;;
     match error result with
     | Some msg => throw (Error ("Google Vision API error: " ++ msg))
     | None =>
         (* Process and return the results *)
         ret (processedResult result)
     end)
    (fun error =>
       (* Fallback to mock implementation if the API call fails *)
       ret (getMockResponse imageUrl)).

End GoogleVisionClient.

(* ================================================================== *)
(** * [GoogleVisionAction] (actions/googleVisionAction.js) *)

Module GoogleVisionAction.

(** [recv.substring(...)]: only strings have the method. *)
Definition as_string (method expr : string) (recv : value) : result string :=
  match recv with
  | VStr s => ret s
  | VUndefined | VNull => throw (cannot_read recv method)
  | _ => throw (not_a_function expr)
  end.

(** [execute(params)]: the whole body is inside the [try]. *)
Definition execute (client : GoogleVisionClient.Client) (params : value)
  : result value :=
  try_catch
    (imageUrl <- destructure "params" params "imageUrl" ;;
     features <- destructure "params" params "features" ;;
     url <- as_string "substring" "imageUrl.substring" imageUrl ;;
     analysisResult <- GoogleVisionClient.analyzeImage client url features ;;
     ret (VObj [("success", VBool true);
                ("data", value_of_analysis analysisResult)]))
    (fun error =>
       ret (VObj [("success", VBool false); ("error", VStr (message error))])).

End GoogleVisionAction.

(* ================================================================== *)
(** * The HTTP request handler (server.js) *)

Module Server.

(** The body of a request as [parseRequestBody] meets it. *)
Inductive RequestBody : Type :=
| NoBody                      (* nothing was sent *)
| JsonText (data : value)     (* text that [JSON.parse] accepts, parsed *)
| Malformed                   (* text that [JSON.parse] rejects *)
| StreamError (e : exn).      (* the request stream emitted 'error' *)

Record Request : Type := {
  method : string;
  pathname : string;
  body : RequestBody
}.

Inductive Payload : Type :=
| Json (data : value)         (* [JSON.stringify(data)] *)
| Html                        (* the demo page *)
| Empty.

Record Response : Type := {
  status : nat;
  contentType : option string;
  payload : Payload
}.

Definition json (code : nat) (data : value) : Response :=
  {| status := code; contentType := Some "application/json"; payload := Json data |}.

Definition error_body (msg : string) : value := VObj [("error", VStr msg)].

Definition parseRequestBody (req : Request) : result value :=
  match body req with
  | NoBody => ret (VObj [])
  | JsonText data => ret data
  | Malformed => throw (Error "Invalid JSON")
  | StreamError e => throw e
  end.

Section Handler.
Context {ops : NumberOps}.
Variable client : GoogleVisionClient.Client.

(** [mockAgent.executeAction(actionName, params)] *)
Definition executeAction (actionName : string) (params : value) : result value :=
  if String.eqb actionName "analyze_image" then
    GoogleVisionAction.execute client params
  else if String.eqb actionName "query_ora" then
    OraAction.execute params
  else throw (Error ("Unknown action: " ++ actionName)).

(** The callback passed to [http.createServer]. *)
Definition handle (req : Request) : Response :=
  if String.eqb (method req) "OPTIONS" then
    {| status := 204; contentType := None; payload := Empty |}
  else
    let path := pathname req in
    let outcome :=
      if String.eqb path "/api/analyze-image" && String.eqb (method req) "POST" then
        body <- parseRequestBody req ;;
        imageUrl <- member body "imageUrl" ;;
        if negb (truthy imageUrl) then
          ret (json 400 (error_body "imageUrl is required"))
        else
          features <- member body "features" ;;
          result <- executeAction "analyze_image"
                      (VObj [("imageUrl", imageUrl);
                             ("features", js_or features GoogleVisionClient.defaultFeatures)]) ;;
          ret (json 200 result)
      else if String.eqb path "/api/query-ora" && String.eqb (method req) "POST" then
        body <- parseRequestBody req ;;
        imageAnalysis <- member body "imageAnalysis" ;;
        query <- (if truthy imageAnalysis then member body "query" else ret VUndefined) ;;
        if negb (truthy imageAnalysis) || negb (truthy query) then
          ret (json 400 (error_body "imageAnalysis and query are required"))
        else
          result <- executeAction "query_ora"
                      (VObj [("imageAnalysis", imageAnalysis); ("query", query)]) ;;
          ret (json 200 result)
      else if String.eqb path "/api/analyze-and-query" && String.eqb (method req) "POST" then
        body <- parseRequestBody req ;;
        imageUrl <- member body "imageUrl" ;;
        query <- (if truthy imageUrl then member body "query" else ret VUndefined) ;;
        if negb (truthy imageUrl) || negb (truthy query) then
          ret (json 400 (error_body "imageUrl and query are required"))
        else
          (* Step 1: Analyze the image *)
          features <- member body "features" ;;
          imageAnalysis <- executeAction "analyze_image"
                             (VObj [("imageUrl", imageUrl);
                                    ("features", js_or features GoogleVisionClient.defaultFeatures)]) ;;
          success <- member imageAnalysis "success" ;;
          if negb (truthy success) then
            error <- member imageAnalysis "error" ;;
            error <- ToString error ;;
            ret (json 500 (error_body ("Failed to analyze image: " ++ error)))
          else
            (* Step 2: Query ORA with the analysis results *)
            data <- member imageAnalysis "data" ;;
            oraResponse <- executeAction "query_ora"
                             (VObj [("imageAnalysis", data); ("query", query)]) ;;
            (* Format the final response *)
            oraData <- member oraResponse "data" ;;
            ret (json 200 (VObj [("success", VBool true);
                                 ("imageAnalysis", data);
                                 ("oraResponse", js_or oraData oraResponse)]))
      else if String.eqb path "/" && String.eqb (method req) "GET" then
        ret {| status := 200; contentType := Some "text/html"; payload := Html |}
      else
        (* Handle 404 *)
        ret (json 404 (error_body "Not Found")) in
    match outcome with
    | Returned response => response
    | Thrown error => json 500 (error_body (message error))
    end.

End Handler.

End Server.

(* ================================================================== *)
(** * Notions used to state the properties *)

Import OraAction.

(** ** The synthesizer *)

(** The answer of the first branch of [generateResponse]. *)
Definition luxuryAnswer (a : AnalysisResult) : Completion :=
  if watchCondition (mainLabels a) (mainObjects a)
  then watchCompletion (watchDetails a)
  else luxuryCompletion (detectedLuxuryItems a) (mainLabels a).

(** An analysis has a label that reads "watch" in some letter case. *)
Definition hasWatchLabel (ls : list Label) : Prop :=
  exists l, In l ls /\ toLowerCase (description l) = "watch".

(** The branch that the [else if] chain selects for a lower-cased query. *)
Inductive Intent : Type :=
| Animal | Object | Color | Text | Location | Default.

Definition classify (queryLower : string) : Intent :=
  if asksAnimal queryLower then Animal
  else if asksObject queryLower then Object
  else if asksColor queryLower then Color
  else if asksText queryLower then Text
  else if asksLocation queryLower then Location
  else Default.

(** What [generateResponse] answers once a branch has been selected. *)
Definition answer (a : AnalysisResult) (i : Intent) : Completion :=
  let tv := view_of_text (text a) in
  let objectNames := map name (objects a) in
  match i with
  | Animal => animalBranch (mainLabels a) (allEntities a)
  | Object => objectBranch (mainLabels a) (detectedLuxuryItems a) objectNames tv
  | Color => colorBranch (mainLabels a) (mainObjects a)
  | Text => textBranch tv
  | Location => locationBranch (mainLabels a)
  | Default => categoryBranch (mainLabels a) (mainObjects a) objectNames tv
  end.

(** The opening words of the luxury sentence of the object branch. *)
Definition objectLuxuryOpening : string :=
  "The main object in this image is a luxury item".

Section SynthesisOfValues.
Context {ops : NumberOps}.

(** The statements inside the [try] of [execute]. *)
Definition synthesize (imageAnalysis query : value) : result Completion :=
  contextString <- prepareContextString imageAnalysis ;;
  generateResponseOf imageAnalysis query (VStr contextString).

(** What the [try] statement of [execute] returns for an analysis and a
    query. *)
Definition oraAnswer (imageAnalysis query : value) : value :=
  match synthesize imageAnalysis query with
  | Returned response => value_of_completion response
  | Thrown error => error_object error
  end.

End SynthesisOfValues.

(** ** The adapter *)

Section AdapterNotions.
Import GoogleVisionClient.

(** A list of feature names as the array of strings that is passed. *)
Definition featureNames (names : list string) : list value := map VStr names.

(** The [features] argument of a call: an array of feature names, or
    nothing (the default parameter value applies). *)
Definition featuresArgument (features : option (list string)) : value :=
  match features with
  | Some names => VArr (featureNames names)
  | None => VUndefined
  end.

(** The request that [analyzeImage] sends. *)
Definition requestOf (imageUrl : string) (features : option (list string))
  : AnnotateRequest :=
  {| image := if startsWith imageUrl "data:image/"
              then Content (split_second "," imageUrl)
              else Source imageUrl;
     features := map (fun feature => VObj [("type", feature)])
                     match features with
                     | Some names => featureNames names
                     | None => defaultFeatureList
                     end |}.

(** The failures of a call: no client, a rejected request, no response in
    the resolved array, or a response that carries an error. *)
Inductive Failure (client : Client) (imageUrl : string)
  (features : option (list string)) : Prop :=
| ClientUninitialized :
    client = None -> Failure client imageUrl features
| CallRejected (annotate : AnnotateRequest -> Outcome) (e : exn) :
    client = Some annotate ->
    annotate (requestOf imageUrl features) = Rejects e ->
    Failure client imageUrl features
| NoResponse (annotate : AnnotateRequest -> Outcome) :
    client = Some annotate ->
    annotate (requestOf imageUrl features) = Resolves [] ->
    Failure client imageUrl features
| ErrorResponse (annotate : AnnotateRequest -> Outcome)
    (r : AnnotateImageResponse) (rest : list AnnotateImageResponse) (msg : string) :
    client = Some annotate ->
    annotate (requestOf imageUrl features) = Resolves (r :: rest) ->
    error r = Some msg ->
    Failure client imageUrl features.

(** The result of [analyzeImage], case by case. *)
Definition analysisOf (client : Client) (imageUrl : string)
  (features : option (list string)) : AnalysisResult :=
  match client with
  | None => getMockResponse imageUrl
  | Some annotate =>
      match annotate (requestOf imageUrl features) with
      | Rejects _ | Resolves [] => getMockResponse imageUrl
      | Resolves (r :: _) =>
          match error r with
          | Some _ => getMockResponse imageUrl
          | None => processedResult r
          end
      end
  end.

End AdapterNotions.

(** ** The routes *)

Section RouteNotions.
Import Server.

(** A POST request with a JSON body. *)
Definition post (path : string) (data : value) : Request :=
  {| method := "POST"; pathname := path; body := JsonText data |}.

(** The optional [features] field of a request body. *)
Definition featureFields (features : option (list string)) : list (string * value) :=
  match features with
  | Some names => [("features", VArr (featureNames names))]
  | None => []
  end.

(** The bodies of the requests to the three routes. *)
Definition analyzeImageBody (imageUrl : string) (features : option (list string))
  : value :=
  VObj (("imageUrl", VStr imageUrl) :: featureFields features).

Definition queryOraBody (imageAnalysis query : value) : value :=
  VObj [("imageAnalysis", imageAnalysis); ("query", query)].

Definition analyzeAndQueryBody (imageUrl : string) (query : value)
  (features : option (list string)) : value :=
  VObj (("imageUrl", VStr imageUrl) :: ("query", query) :: featureFields features).

(** A body in which the field [k] is missing or falsy. *)
Definition lacks (data : value) (k : string) : Prop :=
  exists v, member data k = Returned v /\ truthy v = false.

End RouteNotions.

(** ** Sample analyses *)

Definition ringAnalysis : AnalysisResult :=
  {| labels := [ {| description := "Ring"; score := 0.9%Q |} ];
     text := "";
     objects := [] |}.

Definition watchSixth : AnalysisResult :=
  {| labels := [ {| description := "Metal"; score := 0.9%Q |};
                 {| description := "Circle"; score := 0.9%Q |};
                 {| description := "Glass"; score := 0.8%Q |};
                 {| description := "Number"; score := 0.8%Q |};
                 {| description := "Clock"; score := 0.7%Q |};
                 {| description := "Watch"; score := 0.7%Q |} ];
     text := "";
     objects := [] |}.

Definition watchAnalysis : AnalysisResult :=
  {| labels := [ {| description := "WATCH"; score := 0.9%Q |};
                 {| description := "Strap"; score := 0.8%Q |} ];
     text := "";
     objects := [] |}.

Definition catAnalysis : AnalysisResult :=
  {| labels := [ {| description := "Cat"; score := 0.9%Q |} ];
     text := "";
     objects := [ {| name := "Cat"; objectScore := 0.9%Q;
                     boundingPoly := VUndefined |} ] |}.

Definition skyAnalysis : AnalysisResult :=
  {| labels := [ {| description := "Sky"; score := 0.9%Q |};
                 {| description := "Blue"; score := 0.8%Q |} ];
     text := "";
     objects := [] |}.

Definition emptyAnalysis : AnalysisResult :=
  {| labels := []; text := ""; objects := [] |}.

(** ** Notions for the further properties *)

(** First match in an ordered list of (test, handler result) pairs. *)
Fixpoint firstMatch {A : Type} (queryLower : string)
  (handlers : list ((string -> bool) * A)) (otherwise : A) : A :=
  match handlers with
  | [] => otherwise
  | (test, handler) :: rest =>
      if test queryLower then handler else firstMatch queryLower rest otherwise
  end.

(** A main label contains "watch", "jewelry" or "fashion". *)
Definition hasLuxurySubstring (mainLabels : list string) : bool :=
  existsb (fun label => includes label "watch" || includes label "jewelry" ||
                        includes label "fashion") mainLabels.

(** A completion opens like a sentence of the synthesizer. *)
Definition opensLikeASentence (c : string) : bool :=
  String.prefix "Th" c || String.prefix "I " c.

Definition smartwatchAnalysis : AnalysisResult :=
  {| labels := [ {| description := "Smartwatch"; score := 0.9%Q |} ];
     text := "";
     objects := [] |}.

Definition dogAnalysis : AnalysisResult :=
  {| labels := [ {| description := "Dog"; score := 0.9%Q |};
                 {| description := "Grass"; score := 0.8%Q |} ];
     text := "";
     objects := [ {| name := "Dog"; objectScore := 0.9%Q;
                     boundingPoly := VUndefined |} ] |}.

Definition dogAnalysisRescored : AnalysisResult :=
  {| labels := [ {| description := "Dog"; score := 0.1%Q |};
                 {| description := "Grass"; score := 0.2%Q |} ];
     text := "";
     objects := [ {| name := "Dog"; objectScore := 0.3%Q;
                     boundingPoly := VNull |} ] |}.

Definition sixLabels : AnalysisResult :=
  {| labels := [ {| description := "Dog"; score := 0.9%Q |};
                 {| description := "Grass"; score := 0.8%Q |};
                 {| description := "Park"; score := 0.8%Q |};
                 {| description := "Leash"; score := 0.7%Q |};
                 {| description := "Tail"; score := 0.7%Q |};
                 {| description := "Gold"; score := 0.6%Q |} ];
     text := "";
     objects := [] |}.

Definition fiveLabels : AnalysisResult :=
  {| labels := [ {| description := "Dog"; score := 0.9%Q |};
                 {| description := "Grass"; score := 0.8%Q |};
                 {| description := "Park"; score := 0.8%Q |};
                 {| description := "Leash"; score := 0.7%Q |};
                 {| description := "Tail"; score := 0.7%Q |} ];
     text := "";
     objects := [] |}.

(** The two results of [GoogleVisionAction.execute]. *)
Definition visionSuccess (data : AnalysisResult) : value :=
  VObj [("success", VBool true); ("data", value_of_analysis data)].

Definition visionFailure (error : exn) : value :=
  VObj [("success", VBool false); ("error", VStr (message error))].

(** A score of the data model: a number between 0 and 1. *)
Definition validScore (q : Q) : bool := Qle_bool 0 q && Qle_bool q 1.

(** An annotation service that answers every request with one response. *)
Definition respondsWith (r : GoogleVisionClient.AnnotateImageResponse)
  : GoogleVisionClient.Client :=
  Some (fun _ => GoogleVisionClient.Resolves [r]).

Definition textOnlyResponse : GoogleVisionClient.AnnotateImageResponse :=
  {| GoogleVisionClient.labelAnnotations := None;
     GoogleVisionClient.fullTextAnnotation := Some "EXIT";
     GoogleVisionClient.localizedObjectAnnotations := None;
     GoogleVisionClient.error := None |}.

(** A label object without its [score] field. *)
Definition descriptionOnly (l : Label) : value :=
  VObj [("description", VStr (description l))].

(** The object of an analysis whose labels carry no score. *)
Definition unscoredAnalysis (a : AnalysisResult) : value :=
  VObj [("labels", VArr (map descriptionOnly (labels a)));
        ("text", VStr (text a));
        ("objects", VArr (map value_of_object (objects a)))].

(** An annotation service that returns the payload it is sent as the text
    of the image. *)
Definition echoService (request : GoogleVisionClient.AnnotateRequest)
  : GoogleVisionClient.Outcome :=
  match GoogleVisionClient.image request with
  | GoogleVisionClient.Content (Some payload) =>
      GoogleVisionClient.Resolves
        [ {| GoogleVisionClient.labelAnnotations := None;
             GoogleVisionClient.fullTextAnnotation := Some payload;
             GoogleVisionClient.localizedObjectAnnotations := None;
             GoogleVisionClient.error := None |} ]
  | _ => GoogleVisionClient.Rejects (Error "no payload")
  end.

(** The status codes the handler writes. *)
Definition knownStatus (code : nat) : bool :=
  existsb (Nat.eqb code) [200; 204; 400; 404; 500].

(** A request with a given method, path and body. *)
Definition request (m path : string) (b : Server.RequestBody) : Server.Request :=
  {| Server.method := m; Server.pathname := path; Server.body := b |}.

(** The three POST routes. *)
Definition apiRoutes : list string :=
  ["/api/analyze-image"; "/api/query-ora"; "/api/analyze-and-query"].

Section ResponseNotions.
Import Server.

(** A response as the handler writes them. *)
Definition wellFormed (r : Response) : Prop :=
  knownStatus (status r) = true /\
  (400 <= status r ->
   contentType r = Some "application/json" /\
   exists msg, payload r = Json (VObj [("error", VStr msg)])).

Definition wellFormedOutcome (o : result Response) : Prop :=
  match o with
  | Returned r => wellFormed r
  | Thrown _ => True
  end.

End ResponseNotions.

(* ================================================================== *)
(** * Facts about the primitives *)

Section StringFacts.

Lemma prefix_app (p s t : string) :
  String.prefix p s = true -> String.prefix p (s ++ t) = true.
Proof.
  revert s; induction p as [|c p IH]; intros s H.
  - destruct (s ++ t); reflexivity.
  - destruct s as [|d s]; simpl in *; [discriminate|].
    destruct (ascii_dec c d); [auto | discriminate].
Qed.

Lemma includes_app_l (s t sub : string) :
  includes s sub = true -> includes (s ++ t) sub = true.
Proof.
  induction s as [|c s IH]; simpl; intros H.
  - rewrite orb_false_r in H.
    destruct sub; [|discriminate].
    destruct t; reflexivity.
  - apply orb_true_iff in H. apply orb_true_iff.
    destruct H as [H|H].
    + left. exact (prefix_app sub (String c s) t H).
    + right. auto.
Qed.

Lemma Array_includes_In (l : list string) (x : string) :
  Array_includes l x = true <-> In x l.
Proof.
  unfold Array_includes. rewrite existsb_exists. split.
  - intros [y [Hin Heq]]. apply String.eqb_eq in Heq. now subst.
  - intros Hin. exists x. split; [assumption | apply String.eqb_refl].
Qed.

Lemma slice0_length {A : Type} (n : nat) (l : list A) :
  List.length (slice 0 n l) <= n.
Proof.
  unfold slice. rewrite Nat.sub_0_r. simpl. apply firstn_le_length.
Qed.

Lemma slice0_In {A : Type} (n : nat) (l : list A) (x : A) :
  In x (slice 0 n l) -> In x l.
Proof.
  unfold slice. rewrite Nat.sub_0_r. simpl. intros H.
  rewrite <- (firstn_skipn n l). apply in_or_app. now left.
Qed.

Lemma slice_map {A B : Type} (f : A -> B) (i j : nat) (l : list A) :
  slice i j (map f l) = map f (slice i j l).
Proof.
  unfold slice. now rewrite skipn_map, firstn_map.
Qed.

Lemma ltb_length_filter {A : Type} (f : A -> bool) (l : list A) :
  (0 <? List.length (filter f l)) = existsb f l.
Proof.
  induction l as [|x l IH]; simpl; [reflexivity|].
  destruct (f x); simpl; [reflexivity | exact IH].
Qed.

End StringFacts.

Section MonadFacts.

Lemma bind_Returned {A B : Type} (a : A) (k : A -> result B) :
  bind (Returned a) k = k a.
Proof. reflexivity. Qed.

Lemma bind_ret {A B : Type} (a : A) (k : A -> result B) :
  bind (ret a) k = k a.
Proof. reflexivity. Qed.

Lemma call_slice0_array (expr : string) (n : nat) (l : list value) :
  call_slice0 expr n (VArr l) = Returned (VArr (slice 0 n l)).
Proof. reflexivity. Qed.

Lemma as_array_array (method expr : string) (l : list value) :
  as_array method expr (VArr l) = Returned l.
Proof. reflexivity. Qed.

Lemma call_toLowerCase_string (expr s : string) :
  call_toLowerCase expr (VStr s) = Returned (toLowerCase s).
Proof. reflexivity. Qed.

Lemma destructure_object (expr k : string) (props : list (string * value)) :
  destructure expr (VObj props) k = Returned (field k props).
Proof. reflexivity. Qed.

Lemma member_label_description (l : Label) :
  member (value_of_label l) "description" = Returned (VStr (description l)).
Proof. reflexivity. Qed.

End MonadFacts.

(* ================================================================== *)
(** * The response synthesizer on well-formed analysis results *)

Section Synthesizer.

Lemma luxuryCondition_detected (detected main : list string) :
  (0 <? List.length detected) = true -> luxuryCondition detected main = true.
Proof. unfold luxuryCondition. intros ->. reflexivity. Qed.

Lemma luxuryCondition_false_nil (detected main : list string) :
  luxuryCondition detected main = false -> detected = [].
Proof.
  unfold luxuryCondition. intros H. apply orb_false_iff in H as [H _].
  destruct detected; [reflexivity | discriminate].
Qed.

Lemma detected_nonempty (a : AnalysisResult) (e : string) :
  In e (allEntities a) -> In e luxuryItems ->
  (0 <? List.length (detectedLuxuryItems a)) = true.
Proof.
  intros Hent Hlux. unfold detectedLuxuryItems, detectLuxury.
  rewrite ltb_length_filter. apply existsb_exists.
  exists e. split; [assumption | now apply Array_includes_In].
Qed.

Lemma generateResponse_luxury (a : AnalysisResult) (query ctx : string) :
  luxuryCondition (detectedLuxuryItems a) (mainLabels a) = true ->
  generateResponse a query ctx = luxuryAnswer a.
Proof.
  intros H. unfold generateResponse, luxuryAnswer. cbv zeta. now rewrite H.
Qed.

(** C1.  If a luxury keyword occurs among the entities of the analysis (the
    lower-cased descriptions of the first five labels and the lower-cased
    names of all objects), [generateResponse] answers with the watch
    sentence when "watch" or "analog watch" is among the main labels or
    objects, and with the luxury-collectible sentence otherwise.  Either
    way the completion opens with "This image shows a luxury ", and the
    answer is the same for every query and context string: the luxury test
    comes before the query is looked at. *)
Theorem luxury_short_circuits (a : AnalysisResult) (query ctx : string) :
  (exists e, In e (allEntities a) /\ In e luxuryItems) ->
  generateResponse a query ctx
  = (if watchCondition (mainLabels a) (mainObjects a)
     then {| completion :=
               "This image shows a luxury timepiece. It appears to be an analog watch with the following characteristics: "
               ++ join ", " (watchDetails a) ++
               ". Watches like this are precision instruments that combine craftsmanship with functionality, often serving as both a practical tool and a fashion statement or collectible item." |}
     else {| completion :=
               "This image shows a luxury collectible item: "
               ++ join ", " (detectedLuxuryItems a) ++ ". The item features "
               ++ join ", " (slice 0 3 (mainLabels a)) ++
               " design elements. Luxury items like this are often valued for their craftsmanship, brand prestige, and aesthetic appeal, making them desirable collectibles." |}) /\
  String.prefix "This image shows a luxury "
    (completion (generateResponse a query ctx)) = true /\
  (forall query' ctx',
     generateResponse a query' ctx' = generateResponse a query ctx).
Proof.
  intros [e [Hent Hlux]].
  pose proof (luxuryCondition_detected _ (mainLabels a)
                (detected_nonempty a e Hent Hlux)) as Hcond.
  split; [|split].
  - rewrite (generateResponse_luxury a query ctx Hcond). reflexivity.
  - rewrite (generateResponse_luxury a query ctx Hcond). unfold luxuryAnswer.
    destruct (watchCondition (mainLabels a) (mainObjects a));
      unfold watchCompletion, luxuryCompletion, completion;
      vm_compute; reflexivity.
  - intros query' ctx'. now rewrite !generateResponse_luxury.
Qed.

Lemma luxury_short_circuits_witness :
  generateResponse ringAnalysis "what color is it" ""
  = (if watchCondition (mainLabels ringAnalysis) (mainObjects ringAnalysis)
     then {| completion :=
               "This image shows a luxury timepiece. It appears to be an analog watch with the following characteristics: "
               ++ join ", " (watchDetails ringAnalysis) ++
               ". Watches like this are precision instruments that combine craftsmanship with functionality, often serving as both a practical tool and a fashion statement or collectible item." |}
     else {| completion :=
               "This image shows a luxury collectible item: "
               ++ join ", " (detectedLuxuryItems ringAnalysis) ++ ". The item features "
               ++ join ", " (slice 0 3 (mainLabels ringAnalysis)) ++
               " design elements. Luxury items like this are often valued for their craftsmanship, brand prestige, and aesthetic appeal, making them desirable collectibles." |}) /\
  String.prefix "This image shows a luxury "
    (completion (generateResponse ringAnalysis "what color is it" "")) = true /\
  (forall query' ctx',
     generateResponse ringAnalysis query' ctx' = generateResponse ringAnalysis "what color is it" "").
Proof.
  apply (luxury_short_circuits ringAnalysis "what color is it" "").
  exists "ring". split; simpl; tauto.
Defined.

(** ** The watch sentence *)

(** C2 as stated fails: a "Watch" label in sixth position is not among the
    main labels, and the answer is the generic one. *)
Lemma watch_label_beyond_top5 :
  hasWatchLabel (labels watchSixth) /\
  generateResponse watchSixth "describe this" "" =
    {| completion := "This image shows metal with features including circle, glass, number, clock. " |} /\
  includes (completion (generateResponse watchSixth "describe this" "")) "timepiece" = false.
Proof.
  split; [|split].
  - exists {| description := "Watch"; score := 0.7%Q |}. split; [|reflexivity].
    simpl. tauto.
  - vm_compute. reflexivity.
  - vm_compute. reflexivity.
Qed.

Lemma watchCondition_label (a : AnalysisResult) :
  hasWatchLabel (slice 0 5 (labels a)) ->
  watchCondition (mainLabels a) (mainObjects a) = true.
Proof.
  intros [l [Hin Hlow]]. unfold watchCondition.
  assert (H : Array_includes (mainLabels a) "watch" = true).
  { apply Array_includes_In. unfold mainLabels. apply in_map_iff. now exists l. }
  now rewrite H.
Qed.

Lemma notWatchName_spec (s : string) :
  notWatchName s = true -> s <> "watch" /\ s <> "analog watch".
Proof.
  unfold notWatchName. intros H. apply negb_true_iff in H.
  split; intros ->; discriminate.
Qed.

(** C2, amended.  If one of the first five labels has the description
    "watch" in any letter case, [generateResponse] answers with the watch
    sentence, which contains the word "timepiece"; the characteristics it
    lists are at most five descriptions of labels of the analysis, none of
    which is "watch" or "analog watch" once lower-cased. *)
Theorem watch_label_in_top5 (a : AnalysisResult) (query ctx : string) :
  hasWatchLabel (slice 0 5 (labels a)) ->
  generateResponse a query ctx = watchCompletion (watchDetails a) /\
  includes (completion (generateResponse a query ctx)) "timepiece" = true /\
  List.length (watchDetails a) <= 5 /\
  (forall d, In d (watchDetails a) ->
     (exists l, In l (labels a) /\ description l = d) /\
     toLowerCase d <> "watch" /\ toLowerCase d <> "analog watch").
Proof.
  intros Hw.
  assert (Hresp : generateResponse a query ctx = watchCompletion (watchDetails a)).
  { destruct Hw as [l [Hin Hlow]].
    assert (Hent : In "watch" (allEntities a)).
    { unfold allEntities. apply in_or_app. left. unfold mainLabels.
      apply in_map_iff. now exists l. }
    assert (Hlux : In "watch" luxuryItems) by (simpl; tauto).
    rewrite (generateResponse_luxury a query ctx
               (luxuryCondition_detected _ _ (detected_nonempty a _ Hent Hlux))).
    unfold luxuryAnswer.
    now rewrite (watchCondition_label a (ex_intro _ l (conj Hin Hlow))). }
  split; [exact Hresp|]. split; [|split].
  - rewrite Hresp. unfold watchCompletion. cbn [completion].
    apply includes_app_l. vm_compute. reflexivity.
  - unfold watchDetails. rewrite length_map. apply slice0_length.
  - intros d Hd. unfold watchDetails in Hd.
    apply in_map_iff in Hd as [l [Hdesc Hin]].
    apply slice0_In in Hin. apply filter_In in Hin as [Hin Hkeep].
    subst d. split; [now exists l | now apply notWatchName_spec].
Qed.

Lemma watch_label_in_top5_witness :
  generateResponse watchAnalysis "what is this" "" =
    watchCompletion (watchDetails watchAnalysis) /\
  includes (completion (generateResponse watchAnalysis "what is this" "")) "timepiece" = true /\
  List.length (watchDetails watchAnalysis) <= 5 /\
  (forall d, In d (watchDetails watchAnalysis) ->
     (exists l, In l (labels watchAnalysis) /\ description l = d) /\
     toLowerCase d <> "watch" /\ toLowerCase d <> "analog watch").
Proof.
  apply (watch_label_in_top5 watchAnalysis "what is this" "").
  exists {| description := "WATCH"; score := 0.9%Q |}.
  split; [simpl; tauto | reflexivity].
Defined.

(** ** The cat example *)

(** C3.  For the analysis with the single label "Cat" (score 0.9), no text
    and the single object "Cat" (score 0.9), and the query
    "what animal is this", the completion is exactly the cat sentence. *)
Theorem cat_example (ctx : string) :
  generateResponse catAnalysis "what animal is this" ctx =
  {| completion := "The image shows a cat. Cats are domestic felines known for their independent nature and grooming habits. They are popular pets worldwide." |}.
Proof. vm_compute. reflexivity. Qed.

(** ** The order of the query tests *)

Lemma generateResponse_classify (a : AnalysisResult) (query ctx : string) :
  luxuryCondition (detectedLuxuryItems a) (mainLabels a) = false ->
  generateResponse a query ctx = answer a (classify (toLowerCase query)).
Proof.
  intros H. unfold generateResponse, classify, answer. cbv zeta. rewrite H.
  rewrite (luxuryCondition_false_nil _ _ H).
  destruct (asksAnimal _); [reflexivity|].
  destruct (asksObject _); [reflexivity|].
  destruct (asksColor _); [reflexivity|].
  destruct (asksText _); [reflexivity|].
  destruct (asksLocation _); reflexivity.
Qed.

(** C4.  When the lower-cased query contains an animal keyword and a color
    keyword, the chain of query tests selects the animal branch: unless the
    luxury test has already answered, the response is the one of the animal
    branch. *)
Theorem animal_before_color (a : AnalysisResult) (query ctx : string) :
  asksAnimal (toLowerCase query) = true ->
  asksColor (toLowerCase query) = true ->
  classify (toLowerCase query) = Animal /\
  generateResponse a query ctx =
    (if luxuryCondition (detectedLuxuryItems a) (mainLabels a)
     then luxuryAnswer a
     else animalBranch (mainLabels a) (allEntities a)).
Proof.
  intros Hanimal _.
  assert (Hc : classify (toLowerCase query) = Animal).
  { unfold classify. now rewrite Hanimal. }
  split; [exact Hc|].
  destruct (luxuryCondition _ _) eqn:Hlux.
  - now apply generateResponse_luxury.
  - rewrite (generateResponse_classify a query ctx Hlux), Hc. reflexivity.
Qed.

Lemma animal_before_color_witness :
  classify (toLowerCase "What COLOR is the animal?") = Animal /\
  generateResponse skyAnalysis "What COLOR is the animal?" "" =
    {| completion := "I don't see any animals in this image. The image appears to show a sky." |}.
Proof.
  exact (animal_before_color skyAnalysis "What COLOR is the animal?" ""
           eq_refl eq_refl).
Defined.

(** ** The empty analysis *)

(** C5.  With no labels, no text and no objects, a query that contains none
    of the intent keywords is answered with the sentence for an image
    without identifiable content. *)
Theorem empty_analysis_default (a : AnalysisResult) (query ctx : string) :
  labels a = [] -> text a = "" -> objects a = [] ->
  asksAnimal (toLowerCase query) = false ->
  asksObject (toLowerCase query) = false ->
  asksColor (toLowerCase query) = false ->
  asksText (toLowerCase query) = false ->
  asksLocation (toLowerCase query) = false ->
  generateResponse a query ctx =
  {| completion := "This image doesn't contain clearly identifiable objects or features that I can describe with confidence." |}.
Proof.
  intros Hl Ht Ho Ha Hobj Hc Htx Hloc.
  unfold generateResponse, detectedLuxuryItems, allEntities, mainLabels, mainObjects.
  cbv zeta. rewrite Hl, Ht, Ho, Ha, Hobj, Hc, Htx, Hloc. reflexivity.
Qed.

Lemma empty_analysis_default_witness :
  generateResponse emptyAnalysis "Hello there" "" =
  {| completion := "This image doesn't contain clearly identifiable objects or features that I can describe with confidence." |}.
Proof.
  apply (empty_analysis_default emptyAnalysis "Hello there" "");
    reflexivity.
Defined.

(** ** The luxury sentence of the object branch *)

(** Splits on the tests of the branch under consideration. *)
Ltac branch_cases :=
  repeat match goal with
         | |- context [completion (if ?c then _ else _)] => destruct c
         end.

Lemma watchCompletion_opening (details : list string) :
  String.prefix objectLuxuryOpening (completion (watchCompletion details)) = false.
Proof. reflexivity. Qed.

Lemma luxuryCompletion_opening (detected main : list string) :
  String.prefix objectLuxuryOpening (completion (luxuryCompletion detected main)) = false.
Proof. reflexivity. Qed.

Lemma luxuryAnswer_opening (a : AnalysisResult) :
  String.prefix objectLuxuryOpening (completion (luxuryAnswer a)) = false.
Proof. unfold luxuryAnswer. branch_cases; reflexivity. Qed.

Lemma animalBranch_opening (main entities : list string) :
  String.prefix objectLuxuryOpening (completion (animalBranch main entities)) = false.
Proof. unfold animalBranch. branch_cases; reflexivity. Qed.

Lemma objectBranch_opening (main names : list string) (tv : TextView) :
  String.prefix objectLuxuryOpening (completion (objectBranch main [] names tv)) = false.
Proof.
  unfold objectBranch. cbv zeta. change (0 <? List.length (@nil string)) with false.
  cbv iota. branch_cases; reflexivity.
Qed.

Lemma colorBranch_opening (main objs : list string) :
  String.prefix objectLuxuryOpening (completion (colorBranch main objs)) = false.
Proof. unfold colorBranch. cbv zeta. branch_cases; reflexivity. Qed.

Lemma textBranch_opening (tv : TextView) :
  String.prefix objectLuxuryOpening (completion (textBranch tv)) = false.
Proof. unfold textBranch. branch_cases; reflexivity. Qed.

Lemma locationBranch_opening (main : list string) :
  String.prefix objectLuxuryOpening (completion (locationBranch main)) = false.
Proof. unfold locationBranch. branch_cases; reflexivity. Qed.

Lemma categoryBranch_opening (main objs names : list string) (tv : TextView) :
  String.prefix objectLuxuryOpening (completion (categoryBranch main objs names tv)) = false.
Proof. unfold categoryBranch. cbv zeta. branch_cases; reflexivity. Qed.

(** C9.  Whenever [detectedLuxuryItems] is not empty the first branch
    answers, whatever the query; when the first branch does not answer, the
    list handed to the object branch is empty; and no completion of
    [generateResponse] opens with the words of the luxury sentence of the
    object branch. *)
Theorem object_luxury_case_unreachable (a : AnalysisResult) (query ctx : string) :
  (detectedLuxuryItems a <> [] -> generateResponse a query ctx = luxuryAnswer a) /\
  (luxuryCondition (detectedLuxuryItems a) (mainLabels a) = false ->
     detectedLuxuryItems a = [] /\
     generateResponse a query ctx =
       match classify (toLowerCase query) with
       | Object => objectBranch (mainLabels a) [] (map name (objects a))
                     (view_of_text (text a))
       | i => answer a i
       end) /\
  String.prefix objectLuxuryOpening (completion (generateResponse a query ctx)) = false.
Proof.
  split; [|split].
  - intros Hne. apply generateResponse_luxury, luxuryCondition_detected.
    destruct (detectedLuxuryItems a); [contradiction | reflexivity].
  - intros Hlux. pose proof (luxuryCondition_false_nil _ _ Hlux) as Hnil.
    split; [exact Hnil|].
    rewrite (generateResponse_classify a query ctx Hlux).
    destruct (classify (toLowerCase query)); try reflexivity.
    unfold answer. now rewrite Hnil.
  - destruct (luxuryCondition (detectedLuxuryItems a) (mainLabels a)) eqn:Hlux.
    + rewrite (generateResponse_luxury a query ctx Hlux).
      apply luxuryAnswer_opening.
    + rewrite (generateResponse_classify a query ctx Hlux).
      unfold answer. rewrite (luxuryCondition_false_nil _ _ Hlux).
      destruct (classify (toLowerCase query)).
      * apply animalBranch_opening.
      * apply objectBranch_opening.
      * apply colorBranch_opening.
      * apply textBranch_opening.
      * apply locationBranch_opening.
      * apply categoryBranch_opening.
Qed.

End Synthesizer.

(* ================================================================== *)
(** * The untyped code on well-formed data *)

Section UntypedOnTyped.
Context {ops : NumberOps}.

Lemma ToString_string (s : string) : ToString (VStr s) = Returned s.
Proof. reflexivity. Qed.

Lemma ToString_printable (v : value) :
  printable v = true -> ToString v = Returned (render v).
Proof. unfold ToString. now intros ->. Qed.

Lemma ToString_unprintable (v : value) :
  printable v = false -> ToString v = Thrown cannot_convert.
Proof. unfold ToString. now intros ->. Qed.

(** [join] on an array, and the conversion of the array to a string. *)
Lemma mapM_join_elem_printable (l : list value) :
  forallb printable l = true ->
  mapM join_elem l
  = Returned (map (fun x => match x with
                            | VUndefined | VNull => ""
                            | _ => render x
                            end) l).
Proof.
  induction l as [|x l IH]; [reflexivity|].
  cbn [forallb]. intros H. apply andb_prop in H as [Hx Hl].
  cbn [mapM map]. rewrite (IH Hl).
  destruct x; try reflexivity; unfold join_elem; rewrite (ToString_printable _ Hx);
    reflexivity.
Qed.

Lemma mapM_join_elem_unprintable (l : list value) :
  forallb printable l = false -> mapM join_elem l = Thrown cannot_convert.
Proof.
  induction l as [|x l IH]; [discriminate|].
  cbn [forallb mapM]. destruct (printable x) eqn:Hx.
  - cbn [andb]. intros Hl. rewrite (IH Hl).
    destruct x; try reflexivity; unfold join_elem; rewrite (ToString_printable _ Hx);
      reflexivity.
  - intros _. destruct x; try discriminate Hx;
      unfold join_elem; rewrite (ToString_unprintable _ Hx); reflexivity.
Qed.

(** An array prints as its elements joined by commas. *)
Lemma ToString_array (l : list value) :
  ToString (VArr l) = call_join "," l.
Proof.
  unfold call_join. destruct (forallb printable l) eqn:H.
  - rewrite (mapM_join_elem_printable l H), ToString_printable by exact H.
    reflexivity.
  - rewrite (mapM_join_elem_unprintable l H), ToString_unprintable by exact H.
    reflexivity.
Qed.

Lemma gt_of_nat (n m : nat) : gt (of_nat n) m = Returned (m <? n).
Proof.
  unfold of_nat, gt, ToNumber, number_of, printable, ret, bind, Qle_bool. simpl.
  rewrite !Z.mul_1_r.
  destruct (Z.leb_spec (Z.of_nat n) (Z.of_nat m)), (Nat.ltb_spec m n);
    simpl; try reflexivity; lia.
Qed.

Lemma longer_than_string (t : string) (m : nat) :
  longer_than (VStr t) m = Returned ((0 <? String.length t) && (m <? String.length t)).
Proof.
  unfold longer_than. cbn [truthy].
  destruct (0 <? String.length t); [|reflexivity].
  cbn [member ret bind]. change (String.eqb "length" "length") with true. cbv iota.
  exact (gt_of_nat (String.length t) m).
Qed.

Lemma longer_than_array (l : list value) (m : nat) :
  longer_than (VArr l) m = Returned (m <? List.length l).
Proof.
  unfold longer_than. cbn [truthy member ret bind].
  change (String.eqb "length" "length") with true. cbv iota.
  exact (gt_of_nat (List.length l) m).
Qed.

Lemma textClause_string (t opening : string) :
  textClause (VStr t) opening
  = Returned (if 0 <? String.length t
              then opening ++ dquote ++ t ++ dquote ++ "."
              else "").
Proof.
  unfold textClause. rewrite longer_than_string, bind_Returned.
  destruct (0 <? String.length t); reflexivity.
Qed.

Lemma mapM_join_elem_strings {A : Type} (f : A -> string) (l : list A) :
  mapM join_elem (map (fun x => VStr (f x)) l) = Returned (map f l).
Proof.
  induction l as [|x l IH]; [reflexivity|].
  cbn [map mapM]. rewrite IH. reflexivity.
Qed.

Lemma call_join_strings {A : Type} (sep : string) (f : A -> string) (l : list A) :
  call_join sep (map (fun x => VStr (f x)) l) = Returned (join sep (map f l)).
Proof. unfold call_join. now rewrite mapM_join_elem_strings. Qed.

Lemma mapM_object_names (expr : string) (os : list LocalizedObject) :
  mapM (fun o => n <- member o "name" ;; call_toLowerCase expr n)
       (map value_of_object os)
  = Returned (map (fun o => toLowerCase (name o)) os).
Proof.
  induction os as [|o os IH]; [reflexivity|].
  cbn [map mapM]. rewrite IH. reflexivity.
Qed.

Lemma mapM_names (os : list LocalizedObject) :
  mapM (fun o => member o "name") (map value_of_object os)
  = Returned (map (fun o => VStr (name o)) os).
Proof.
  induction os as [|o os IH]; [reflexivity|].
  cbn [map mapM]. rewrite IH. reflexivity.
Qed.

Lemma text_present_view (t : string) :
  text_present (view_of_text t) = (0 <? String.length t).
Proof. reflexivity. Qed.

Lemma text_substantial_view (t : string) :
  text_substantial (view_of_text t)
  = (0 <? String.length t) && (10 <? String.length t).
Proof. reflexivity. Qed.

Lemma text_shown_view (t : string) : text_shown (view_of_text t) = t.
Proof. reflexivity. Qed.

(** The three branches that read the text, on a string. *)
Lemma objectBranchOf_typed (mainLabels detected : list string)
  (os : list LocalizedObject) (t : string) :
  objectBranchOf mainLabels detected (map value_of_object os) (VStr t)
  = Returned (objectBranch mainLabels detected (map name os) (view_of_text t)).
Proof.
  unfold objectBranchOf, objectBranch. rewrite !length_map.
  destruct (0 <? List.length os).
  - rewrite mapM_names, bind_Returned, call_join_strings, bind_Returned.
    destruct (0 <? List.length detected); reflexivity.
  - destruct (0 <? List.length mainLabels); [|reflexivity].
    rewrite textClause_string, bind_Returned, text_present_view, text_shown_view.
    reflexivity.
Qed.

Lemma textBranchOf_typed (t : string) :
  textBranchOf (VStr t) = Returned (textBranch (view_of_text t)).
Proof.
  unfold textBranchOf, textBranch.
  rewrite longer_than_string, bind_Returned, text_present_view, text_shown_view.
  replace ((0 <? String.length t) && (0 <? String.length t))
    with (0 <? String.length t) by now destruct (0 <? String.length t).
  destruct (0 <? String.length t); reflexivity.
Qed.

Lemma categoryBranchOf_typed (mainLabels mainObjects : list string)
  (os : list LocalizedObject) (t : string) :
  categoryBranchOf mainLabels mainObjects (map value_of_object os) (VStr t)
  = Returned (categoryBranch mainLabels mainObjects (map name os) (view_of_text t)).
Proof.
  unfold categoryBranchOf, categoryBranch, textSuffix. rewrite !length_map.
  rewrite text_substantial_view, text_present_view, text_shown_view.
  destruct (_ || _); [reflexivity|].
  destruct (_ || _); [reflexivity|].
  destruct (_ || _); [reflexivity|].
  destruct (_ || _); [reflexivity|].
  destruct (_ || _); [reflexivity|].
  rewrite !longer_than_string, bind_Returned.
  replace ((0 <? String.length t) && (0 <? String.length t))
    with (0 <? String.length t) by now destruct (0 <? String.length t).
  rewrite !textClause_string.
  destruct (0 <? String.length t).
  - rewrite bind_Returned. cbn [andb].
    destruct (10 <? String.length t); [reflexivity|].
    destruct (_ || _); [reflexivity|].
    destruct (0 <? List.length os).
    + now rewrite mapM_names, bind_Returned, call_join_strings, !bind_Returned.
    + destruct (0 <? List.length _); [now rewrite bind_Returned | reflexivity].
  - rewrite bind_ret.
    destruct (_ || _); [reflexivity|].
    destruct (0 <? List.length os).
    + now rewrite mapM_names, bind_Returned, call_join_strings, !bind_Returned.
    + destruct (0 <? List.length _); [now rewrite bind_Returned | reflexivity].
Qed.

(** Labels may be given with or without their scores: [generateResponse]
    reads their descriptions only. *)
Section LabelEncoding.
Variable enc : Label -> value.
Hypothesis enc_description :
  forall l, member (enc l) "description" = Returned (VStr (description l)).

Lemma mapM_label_descriptions (expr : string) (ls : list Label) :
  mapM (fun l => d <- member l "description" ;; call_toLowerCase expr d)
       (map enc ls)
  = Returned (map (fun l => toLowerCase (description l)) ls).
Proof.
  induction ls as [|l ls IH]; [reflexivity|].
  cbn [map mapM]. rewrite IH, enc_description. reflexivity.
Qed.

Lemma mapM_descriptions (ls : list Label) :
  mapM (fun l => member l "description") (map enc ls)
  = Returned (map (fun l => VStr (description l)) ls).
Proof.
  induction ls as [|l ls IH]; [reflexivity|].
  cbn [map mapM]. rewrite IH, enc_description. reflexivity.
Qed.

Lemma filterM_labels (expr : string) (ls : list Label) :
  filterM (fun l => d <- member l "description" ;;
                    lowered <- call_toLowerCase expr d ;;
                    ret (notWatchName lowered))
          (map enc ls)
  = Returned (map enc
                (filter (fun l => notWatchName (toLowerCase (description l))) ls)).
Proof.
  induction ls as [|l ls IH]; [reflexivity|].
  cbn [map filterM filter].
  rewrite IH, enc_description, !bind_Returned, call_toLowerCase_string.
  rewrite bind_Returned, bind_ret, bind_Returned.
  destruct (notWatchName (toLowerCase (description l))); reflexivity.
Qed.

Lemma watchCompletionOf_labels (ls : list Label) (t : string)
  (os : list LocalizedObject) :
  watchCompletionOf (VArr (map enc ls))
  = Returned (watchCompletion
                (watchDetails {| labels := ls; text := t; objects := os |})).
Proof.
  unfold watchCompletionOf, watchDetails. cbn [labels].
  rewrite as_array_array, bind_Returned, filterM_labels, bind_Returned.
  rewrite slice_map, mapM_descriptions, bind_Returned.
  rewrite <- (map_map description VStr), mapM_join_elem_strings, bind_Returned.
  now rewrite map_id.
Qed.

Lemma generateResponseOf_labels (a : AnalysisResult) (query ctx : string)
  (ctx' : value) :
  generateResponseOf
    (VObj [("labels", VArr (map enc (labels a)));
           ("text", VStr (text a));
           ("objects", VArr (map value_of_object (objects a)))])
    (VStr query) ctx'
  = Returned (generateResponse a query ctx).
Proof.
  unfold generateResponseOf.
  rewrite !destructure_object, !bind_Returned.
  change (field "labels" _) with (VArr (map enc (labels a))).
  change (field "objects" _) with (VArr (map value_of_object (objects a))).
  change (field "text" _) with (VStr (text a)).
  rewrite call_slice0_array, bind_Returned, as_array_array, bind_Returned.
  rewrite slice_map, mapM_label_descriptions, bind_Returned.
  rewrite as_array_array, bind_Returned, mapM_object_names, bind_Returned.
  rewrite call_toLowerCase_string, bind_Returned.
  rewrite objectBranchOf_typed, textBranchOf_typed, categoryBranchOf_typed.
  destruct a as [ls t os]. cbn [labels text objects].
  rewrite (watchCompletionOf_labels ls t os).
  unfold generateResponse. cbv zeta.
  unfold OraAction.detectedLuxuryItems, OraAction.allEntities,
    OraAction.mainLabels, OraAction.mainObjects, ret.
  cbn [labels text objects].
  destruct (luxuryCondition _ _);
    [destruct (watchCondition _ _); reflexivity|].
  destruct (asksAnimal _); [reflexivity|].
  destruct (asksObject _); [reflexivity|].
  destruct (asksColor _); [reflexivity|].
  destruct (asksText _); [reflexivity|].
  destruct (asksLocation _); [reflexivity|].
  destruct (0 <? _); [destruct (watchCondition _ _); reflexivity|].
  reflexivity.
Qed.

End LabelEncoding.

Lemma destructure_labels (expr : string) (a : AnalysisResult) :
  destructure expr (value_of_analysis a) "labels"
  = Returned (VArr (map value_of_label (labels a))).
Proof. reflexivity. Qed.

Lemma destructure_objects (expr : string) (a : AnalysisResult) :
  destructure expr (value_of_analysis a) "objects"
  = Returned (VArr (map value_of_object (objects a))).
Proof. reflexivity. Qed.

Lemma destructure_text (expr : string) (a : AnalysisResult) :
  destructure expr (value_of_analysis a) "text" = Returned (VStr (text a)).
Proof. reflexivity. Qed.

(** On the JavaScript object of a well-formed analysis and a string query
    the untyped [generateResponse] throws nothing and returns what the typed
    one returns. *)
Lemma generateResponseOf_typed (a : AnalysisResult) (query ctx : string) (ctx' : value) :
  generateResponseOf (value_of_analysis a) (VStr query) ctx'
  = Returned (generateResponse a query ctx).
Proof.
  exact (generateResponseOf_labels value_of_label member_label_description
           a query ctx ctx').
Qed.

End UntypedOnTyped.

(* ================================================================== *)
(** * [OraAction.execute] on arbitrary parameters *)

Section Execute.
Context {ops : NumberOps}.

(** [execute] on a parameters object: the conversion of the query for the
    log comes first; what follows returns. *)
Lemma execute_object (props : list (string * value)) :
  execute (VObj props) =
  if printable (field "query" props)
  then Returned (oraAnswer (field "imageAnalysis" props) (field "query" props))
  else Thrown cannot_convert.
Proof.
  unfold execute, oraAnswer, synthesize.
  rewrite !destructure_object, !bind_Returned.
  unfold ToString. destruct (printable (field "query" props)); [|reflexivity].
  rewrite bind_ret. unfold JSON_stringify. rewrite bind_ret.
  destruct (prepareContextString (field "imageAnalysis" props)) as [c|e];
    [|reflexivity].
  rewrite !bind_Returned.
  destruct (generateResponseOf _ _ _); reflexivity.
Qed.

(** C10.  [execute] throws on a parameters object whose query is an object
    with an own property [toString], whatever the analysis: the template
    literal of the first logging statement converts the query to a string
    before the [try] is entered, and the TypeError of that conversion
    escapes. *)
Theorem execute_throws_on_unprintable_query (imageAnalysis v : value)
  (rest : list (string * value)) :
  execute (VObj [("imageAnalysis", imageAnalysis);
                 ("query", VObj (("toString", v) :: rest))])
  = Thrown (TypeError "Cannot convert object to primitive value").
Proof. now rewrite execute_object. Qed.

(** When the query can be printed, [execute] returns and throws nothing:
    it returns the completion object when [prepareContextString] and
    [generateResponse] return, and the object
    [{ error: true, message: "Failed to query ORA API: ..." }] built from
    the exception when either of them throws. *)
Lemma execute_returns (props : list (string * value)) :
  printable (field "query" props) = true ->
  (exists v, execute (VObj props) = Returned v) /\
  (forall response,
     synthesize (field "imageAnalysis" props) (field "query" props) = Returned response ->
     execute (VObj props) = Returned (VObj [("completion", VStr (completion response))])) /\
  (forall error,
     synthesize (field "imageAnalysis" props) (field "query" props) = Thrown error ->
     execute (VObj props) =
     Returned (VObj [("error", VBool true);
                     ("message", VStr ("Failed to query ORA API: " ++ message error))])).
Proof.
  intros Hq. rewrite execute_object, Hq. unfold oraAnswer. split; [|split].
  - eexists. reflexivity.
  - intros response ->. reflexivity.
  - intros error ->. reflexivity.
Qed.

(** The malformed analyses do make the body of the [try] throw, and
    [execute] turns the exception into the error object. *)

(** No [labels] field: [prepareContextString] skips the labels and
    [generateResponse] fails on [labels.slice]. *)
Example execute_labels_missing :
  execute (VObj [("imageAnalysis", VObj [("text", VStr ""); ("objects", VArr [])]);
                 ("query", VStr "what is this")])
  = Returned (VObj [("error", VBool true);
                    ("message", VStr "Failed to query ORA API: Cannot read properties of undefined (reading 'slice')")]).
Proof. reflexivity. Qed.

(** [objects] is a number, not a sequence. *)
Example execute_objects_not_a_sequence :
  execute (VObj [("imageAnalysis",
                  VObj [("labels", VArr []); ("text", VStr ""); ("objects", VNum 3)]);
                 ("query", VStr "what is this")])
  = Returned (VObj [("error", VBool true);
                    ("message", VStr "Failed to query ORA API: objects.map is not a function")]).
Proof. reflexivity. Qed.

(** A label whose [score] is a string: [prepareContextString] fails on
    [label.score.toFixed]. *)
Example execute_score_not_a_number :
  execute (VObj [("imageAnalysis",
                  VObj [("labels", VArr [VObj [("description", VStr "Cat");
                                               ("score", VStr "high")]]);
                        ("text", VStr ""); ("objects", VArr [])]);
                 ("query", VStr "what is this")])
  = Returned (VObj [("error", VBool true);
                    ("message", VStr "Failed to query ORA API: label.score.toFixed is not a function")]).
Proof. reflexivity. Qed.

(** The analysis itself is [null]. *)
Example execute_analysis_null :
  execute (VObj [("imageAnalysis", VNull); ("query", VStr "what is this")])
  = Returned (VObj [("error", VBool true);
                    ("message", VStr "Failed to query ORA API: Cannot destructure property 'labels' of 'imageAnalysis' as it is null.")]).
Proof. reflexivity. Qed.

(** A text that cannot be printed fails inside the [try]. *)
Example execute_text_unprintable :
  execute (VObj [("imageAnalysis",
                  VObj [("labels", VArr []);
                        ("text", VObj [("length", VNum 3); ("toString", VNum 1)]);
                        ("objects", VArr [])]);
                 ("query", VStr "what is this")])
  = Returned (VObj [("error", VBool true);
                    ("message", VStr "Failed to query ORA API: Cannot convert object to primitive value")]).
Proof. reflexivity. Qed.

(** A well-formed analysis and a string query: the completion object of
    the typed synthesizer. *)
Lemma mapM_label_items (ls : list Label) :
  exists items,
    mapM (fun label =>
            d <- member label "description" ;;
            d <- ToString d ;;
            s <- member label "score" ;;
            f <- call_toFixed "label.score.toFixed" s 2 ;;
            ret (d ++ " (confidence: " ++ f ++ ")"))
         (map value_of_label ls) = Returned items.
Proof.
  induction ls as [|l ls [items IH]]; [now exists []|].
  cbn [map mapM]. rewrite IH. eexists. reflexivity.
Qed.

Lemma mapM_object_items (os : list LocalizedObject) :
  exists items,
    mapM (fun object =>
            n <- member object "name" ;;
            n <- ToString n ;;
            s <- member object "score" ;;
            f <- call_toFixed "object.score.toFixed" s 2 ;;
            ret (n ++ " (confidence: " ++ f ++ ")"))
         (map value_of_object os) = Returned items.
Proof.
  induction os as [|o os [items IH]]; [now exists []|].
  cbn [map mapM]. rewrite IH. eexists. reflexivity.
Qed.

Lemma prepareContextString_typed (a : AnalysisResult) :
  exists c, prepareContextString (value_of_analysis a) = Returned c.
Proof.
  unfold prepareContextString.
  rewrite destructure_labels, destructure_objects, destructure_text, !bind_Returned.
  rewrite !longer_than_array, longer_than_string, !bind_Returned.
  destruct (mapM_label_items (labels a)) as [ls Hls].
  destruct (mapM_object_items (objects a)) as [os Hos].
  destruct (0 <? List.length (map value_of_label (labels a)));
    destruct ((0 <? String.length (text a)) && (0 <? String.length (text a)));
    destruct (0 <? List.length (map value_of_object (objects a)));
    repeat (progress (cbv iota;
                      rewrite ?as_array_array, ?Hls, ?Hos, ?ToString_string,
                        ?bind_Returned, ?bind_ret));
    eexists; reflexivity.
Qed.

Lemma oraAnswer_typed (a : AnalysisResult) (query : string) :
  oraAnswer (value_of_analysis a) (VStr query)
  = value_of_completion (generateResponse a query "").
Proof.
  unfold oraAnswer, synthesize.
  destruct (prepareContextString_typed a) as [c ->].
  now rewrite bind_Returned, (generateResponseOf_typed a query "").
Qed.

Lemma execute_typed (a : AnalysisResult) (query : string) :
  execute (VObj [("imageAnalysis", value_of_analysis a); ("query", VStr query)])
  = Returned (value_of_completion (generateResponse a query "")).
Proof.
  rewrite execute_object.
  change (field "imageAnalysis" _) with (value_of_analysis a).
  change (field "query" _) with (VStr query).
  now rewrite oraAnswer_typed.
Qed.

End Execute.

(* ================================================================== *)
(** * The vision adapter *)

Section Adapter.
Import GoogleVisionClient.

Lemma printable_featureNames (names : list string) :
  forallb printable (featureNames names) = true.
Proof. induction names as [|n names IH]; [reflexivity | exact IH]. Qed.

Lemma call_features_join_names (names : list string) :
  call_features_join (VArr (featureNames names)) = Returned tt.
Proof.
  unfold call_features_join. rewrite as_array_array, bind_Returned.
  now rewrite printable_featureNames.
Qed.

Lemma call_features_join_unprintable (x : value) (fs : list value) :
  printable x = false ->
  call_features_join (VArr (x :: fs)) = Thrown cannot_convert.
Proof.
  intros Hx. unfold call_features_join. rewrite as_array_array, bind_Returned.
  cbn [forallb]. now rewrite Hx.
Qed.

Lemma analyzeImage_returns (client : Client) (imageUrl : string)
  (features : option (list string)) :
  analyzeImage client imageUrl (featuresArgument features)
  = Returned (analysisOf client imageUrl features).
Proof.
  unfold analyzeImage, analysisOf, requestOf, processedResult. cbv zeta.
  destruct features as [names|]; cbn [featuresArgument].
  - rewrite call_features_join_names, bind_Returned.
    destruct client as [annotate|]; [|reflexivity].
    cbn [bind ret as_array].
    destruct (annotate _) as [[|r rest]|e]; try reflexivity.
    cbn [await bind ret try_catch]. destruct (error r); reflexivity.
  - change defaultFeatures
      with (VArr (featureNames ["LABEL_DETECTION"; "TEXT_DETECTION";
                                "OBJECT_LOCALIZATION"])).
    rewrite call_features_join_names, bind_Returned.
    destruct client as [annotate|]; [|reflexivity].
    cbn [bind ret as_array]. fold defaultFeatureList.
    destruct (annotate _) as [[|r rest]|e]; try reflexivity.
    cbn [await bind ret try_catch]. destruct (error r); reflexivity.
Qed.

Lemma analysisOf_failure (client : Client) (imageUrl : string)
  (features : option (list string)) :
  Failure client imageUrl features ->
  analysisOf client imageUrl features = getMockResponse imageUrl.
Proof.
  unfold analysisOf.
  intros [-> | annotate e -> -> | annotate -> -> | annotate r rest msg -> -> ->];
    reflexivity.
Qed.

(** [features.join] converts the features before the [try] is entered:
    when the first feature is an object with an own property [toString]
    the TypeError escapes, whatever the client and the image reference. *)
Lemma analyzeImage_unprintable_feature (client : Client)
  (imageUrl : string) (v : value) (rest : list (string * value))
  (fs : list value) :
  analyzeImage client imageUrl (VArr (VObj (("toString", v) :: rest) :: fs))
  = Thrown cannot_convert.
Proof.
  unfold analyzeImage. cbv zeta.
  now rewrite call_features_join_unprintable.
Qed.

(** C6 as stated fails for a feature list that holds something else than
    feature names: without a client, the call with the one feature
    [{ "toString": 1 }] throws a TypeError to its caller and returns no
    fixture. *)
Lemma analyzeImage_throws_on_unprintable_feature :
  analyzeImage None "https://example.com/sample-image.jpg"
    (VArr [VObj [("toString", VNum 1)]])
  = Thrown (TypeError "Cannot convert object to primitive value").
Proof. reflexivity. Qed.

(** C6, as amended.  For a string image reference and a list of feature
    names (or none), [analyzeImage] returns and throws nothing.  On a
    failure (no client, a rejected call, an empty or an error response) it
    returns the fixture picked by [getMockResponse]: the person fixture
    (Person, Human, Face, Portrait, Photography) for a reference that
    starts with "data:image/" and contains the signature of the person
    image, the generic object fixture (Object, Item, Product, Artifact,
    Material) for any other reference that starts with "data:image/", and
    the landscape fixture (Sky, Cloud, Tree, Nature, Landscape) for every
    other reference. *)
Theorem analyzeImage_falls_back (client : Client) (imageUrl : string)
  (features : option (list string)) :
  (exists r, analyzeImage client imageUrl (featuresArgument features) = Returned r) /\
  (Failure client imageUrl features ->
   analyzeImage client imageUrl (featuresArgument features)
   = Returned (getMockResponse imageUrl)) /\
  (let r := getMockResponse imageUrl in
   let labelled := map (fun l => (description l, score l)) (labels r) in
   let located := map (fun o => (name o, objectScore o)) (objects r) in
   text r = "" /\
   if startsWith imageUrl "data:image/" then
     if includes imageUrl personSignature then
       labelled = [("Person", 0.98%Q); ("Human", 0.97%Q); ("Face", 0.95%Q);
                   ("Portrait", 0.92%Q); ("Photography", 0.90%Q)] /\
       located = [("Person", 0.98%Q); ("Face", 0.95%Q)]
     else
       labelled = [("Object", 0.90%Q); ("Item", 0.85%Q); ("Product", 0.80%Q);
                   ("Artifact", 0.75%Q); ("Material", 0.70%Q)] /\
       located = [("Object", 0.90%Q)]
   else
     labelled = [("Sky", 0.95%Q); ("Cloud", 0.92%Q); ("Tree", 0.87%Q);
                 ("Nature", 0.85%Q); ("Landscape", 0.82%Q)] /\
     located = [("Tree", 0.87%Q); ("Sky", 0.95%Q)]).
Proof.
  rewrite analyzeImage_returns.
  split; [eexists; reflexivity|].
  split; [intros H; now rewrite (analysisOf_failure _ _ _ H)|].
  cbv zeta. unfold getMockResponse.
  destruct (startsWith imageUrl "data:image/");
    [destruct (includes imageUrl personSignature)|]; repeat split.
Qed.

(** The three failures on concrete calls. *)
Example analyzeImage_without_client :
  analyzeImage None "https://example.com/sample-image.jpg" VUndefined
  = Returned landscapeFixture.
Proof. reflexivity. Qed.

Example analyzeImage_rejected_call :
  analyzeImage (Some (fun _ => Rejects (Error "network down")))
    "data:image/png;base64,iVBORw0KGgo=" (VArr [VStr "LABEL_DETECTION"])
  = Returned genericFixture.
Proof. reflexivity. Qed.

Example analyzeImage_error_response :
  analyzeImage
    (Some (fun _ => Resolves [ {| labelAnnotations := None;
                                  fullTextAnnotation := None;
                                  localizedObjectAnnotations := None;
                                  error := Some "Bad image data." |} ]))
    ("data:image/jpeg;base64," ++ personSignature ++ "AAAA") VUndefined
  = Returned personFixture.
Proof. vm_compute. reflexivity. Qed.

End Adapter.

(* ================================================================== *)
(** * The HTTP routes *)

Section Routes.
Import GoogleVisionClient Server.
Context {ops : NumberOps}.
Variable client : Client.

Ltac route_step :=
  cbn [method pathname body post parseRequestBody bind ret member field lookup
       String.eqb Ascii.eqb Bool.eqb andb negb orb truthy
       analyzeImageBody queryOraBody analyzeAndQueryBody featureFields].

Lemma visionAction_execute (imageUrl : string) (features : option (list string)) :
  GoogleVisionAction.execute client
    (VObj [("imageUrl", VStr imageUrl);
           ("features", js_or (field "features" (featureFields features)) defaultFeatures)])
  = Returned (VObj [("success", VBool true);
                    ("data", value_of_analysis (analysisOf client imageUrl features))]).
Proof.
  unfold GoogleVisionAction.execute.
  rewrite !destructure_object, !bind_Returned.
  change (field "imageUrl" _) with (VStr imageUrl).
  cbn [GoogleVisionAction.as_string bind ret].
  destruct features as [names|].
  - change (field "features" _) with (featuresArgument (Some names)).
    now rewrite analyzeImage_returns.
  - change (field "features" _)
      with (featuresArgument
              (Some ["LABEL_DETECTION"; "TEXT_DETECTION"; "OBJECT_LOCALIZATION"])).
    now rewrite analyzeImage_returns.
Qed.

Lemma oraAction_execute (imageAnalysis query : value) :
  OraAction.execute (VObj [("imageAnalysis", imageAnalysis); ("query", query)])
  = if printable query
    then Returned (oraAnswer imageAnalysis query)
    else Thrown cannot_convert.
Proof. now rewrite execute_object. Qed.

Lemma oraAnswer_no_data (imageAnalysis query : value) :
  member (oraAnswer imageAnalysis query) "data" = Returned VUndefined.
Proof. unfold oraAnswer. destruct (synthesize _ _); reflexivity. Qed.

Lemma analyze_image_route (imageUrl : string) (features : option (list string)) :
  handle client (post "/api/analyze-image" (analyzeImageBody imageUrl features))
  = if 0 <? String.length imageUrl
    then json 200 (VObj [("success", VBool true);
                         ("data", value_of_analysis (analysisOf client imageUrl features))])
    else json 400 (error_body "imageUrl is required").
Proof.
  unfold handle. route_step.
  destruct (0 <? String.length imageUrl); [|reflexivity].
  route_step. unfold executeAction. route_step.
  pose proof (visionAction_execute imageUrl features) as H.
  destruct features as [fs|]; cbn [featureFields field lookup String.eqb Ascii.eqb Bool.eqb] in H;
    route_step; rewrite H; reflexivity.
Qed.

(** The query route: when the query cannot be printed the action throws
    and the handler's [catch] answers 500. *)
Lemma query_ora_route (imageAnalysis query : value) :
  handle client (post "/api/query-ora" (queryOraBody imageAnalysis query))
  = if truthy imageAnalysis && truthy query
    then if printable query
         then json 200 (oraAnswer imageAnalysis query)
         else json 500 (error_body "Cannot convert object to primitive value")
    else json 400 (error_body "imageAnalysis and query are required").
Proof.
  unfold handle. route_step.
  destruct (truthy imageAnalysis); route_step; [|reflexivity].
  destruct (truthy query); route_step; [|reflexivity].
  unfold executeAction. route_step.
  rewrite oraAction_execute. destruct (printable query); reflexivity.
Qed.

Lemma analyze_and_query_route (imageUrl : string) (query : value)
  (features : option (list string)) :
  handle client (post "/api/analyze-and-query" (analyzeAndQueryBody imageUrl query features))
  = if (0 <? String.length imageUrl) && truthy query
    then
      if printable query then
        let data := value_of_analysis (analysisOf client imageUrl features) in
        json 200 (VObj [("success", VBool true);
                        ("imageAnalysis", data);
                        ("oraResponse", oraAnswer data query)])
      else json 500 (error_body "Cannot convert object to primitive value")
    else json 400 (error_body "imageUrl and query are required").
Proof.
  unfold handle. route_step.
  destruct (0 <? String.length imageUrl); route_step; [|reflexivity].
  destruct (truthy query) eqn:Hq; route_step; [|reflexivity].
  unfold executeAction. route_step.
  pose proof (visionAction_execute imageUrl features) as H.
  destruct features as [fs|]; cbn [featureFields field lookup String.eqb Ascii.eqb Bool.eqb] in H;
    route_step; rewrite H; route_step;
    rewrite oraAction_execute; (destruct (printable query); [|reflexivity]);
    route_step; rewrite oraAnswer_no_data; reflexivity.
Qed.


(** For a string query the [oraResponse] of the combined route is the
    completion of the typed synthesizer on the analysis. *)
Lemma analyze_and_query_completion (imageUrl query : string)
  (features : option (list string)) :
  imageUrl <> "" -> query <> "" ->
  handle client (post "/api/analyze-and-query"
                   (analyzeAndQueryBody imageUrl (VStr query) features))
  = let analysis := analysisOf client imageUrl features in
    json 200 (VObj [("success", VBool true);
                    ("imageAnalysis", value_of_analysis analysis);
                    ("oraResponse",
                     value_of_completion (generateResponse analysis query ""))]).
Proof.
  intros Hurl Hq. rewrite analyze_and_query_route.
  destruct imageUrl as [|c u]; [contradiction|].
  destruct query as [|d q]; [contradiction|].
  cbn [String.length Nat.ltb Nat.leb andb truthy printable]. cbv zeta.
  now rewrite oraAnswer_typed.
Qed.

(** ** Request validation *)

(** Every body other than [null] that lacks a required field is answered
    with 400 and an [error] field. *)
Lemma missing_field_is_rejected (data : value) :
  (lacks data "imageUrl" ->
   handle client (post "/api/analyze-image" data)
   = json 400 (error_body "imageUrl is required")) /\
  (lacks data "imageAnalysis" \/ lacks data "query" ->
   data <> VNull -> data <> VUndefined ->
   handle client (post "/api/query-ora" data)
   = json 400 (error_body "imageAnalysis and query are required")) /\
  (lacks data "imageUrl" \/ lacks data "query" ->
   data <> VNull -> data <> VUndefined ->
   handle client (post "/api/analyze-and-query" data)
   = json 400 (error_body "imageUrl and query are required")).
Proof.
  assert (Hmember : forall k, data <> VNull -> data <> VUndefined ->
            exists v, member data k = Returned v).
  { intros k Hn Hu. destruct data; try contradiction; eexists; reflexivity. }
  split; [|split].
  - intros [v [Hm Hv]]. unfold handle. route_step. rewrite Hm. route_step.
    now rewrite Hv.
  - intros H Hn Hu. unfold handle. route_step.
    destruct (Hmember "imageAnalysis" Hn Hu) as [ia Hia]. rewrite Hia. route_step.
    destruct (truthy ia) eqn:Hta; route_step; [|reflexivity].
    destruct H as [[v [Hm Hv]]|[v [Hm Hv]]].
    + rewrite Hia in Hm. injection Hm as <-. congruence.
    + rewrite Hm. route_step. now rewrite Hv.
  - intros H Hn Hu. unfold handle. route_step.
    destruct (Hmember "imageUrl" Hn Hu) as [u Hu']. rewrite Hu'. route_step.
    destruct (truthy u) eqn:Htu; route_step; [|reflexivity].
    destruct H as [[v [Hm Hv]]|[v [Hm Hv]]].
    + rewrite Hu' in Hm. injection Hm as <-. congruence.
    + rewrite Hm. route_step. now rewrite Hv.
Qed.

(** A request without any body is answered with 400 as well. *)
Lemma empty_body_is_rejected :
  handle client {| method := "POST"; pathname := "/api/analyze-image"; body := NoBody |}
  = json 400 (error_body "imageUrl is required") /\
  handle client {| method := "POST"; pathname := "/api/query-ora"; body := NoBody |}
  = json 400 (error_body "imageAnalysis and query are required") /\
  handle client {| method := "POST"; pathname := "/api/analyze-and-query"; body := NoBody |}
  = json 400 (error_body "imageUrl and query are required").
Proof. repeat split. Qed.

(** C8 fails on the body [null]: it is valid JSON and lacks every field,
    reading a field of it throws, and the handler's [catch] answers 500
    with the text of the exception. *)
Theorem null_body_is_a_server_error :
  handle client (post "/api/analyze-image" VNull)
  = json 500 (error_body "Cannot read properties of null (reading 'imageUrl')") /\
  handle client (post "/api/query-ora" VNull)
  = json 500 (error_body "Cannot read properties of null (reading 'imageAnalysis')") /\
  handle client (post "/api/analyze-and-query" VNull)
  = json 500 (error_body "Cannot read properties of null (reading 'imageUrl')").
Proof. repeat split. Qed.

End Routes.


(* ================================================================== *)
(** * Examples of requests *)

Section Examples.
Import GoogleVisionClient Server.
Context {ops : NumberOps}.

(** Without credentials the adapter has no client: a plain URL is analyzed
    as the landscape fixture, and a question about colors is answered by the
    sky sentence of the color branch. *)
Example analyze_and_query_without_credentials :
  handle None (post "/api/analyze-and-query"
                 (analyzeAndQueryBody "https://example.com/sample-image.jpg"
                    (VStr "What colors are in this image?") None))
  = json 200
      (VObj [("success", VBool true);
             ("imageAnalysis", value_of_analysis landscapeFixture);
             ("oraResponse",
              VObj [("completion",
                     VStr "The image contains sky which appears blue, and likely has other natural colors typical of an outdoor scene.")])]).
Proof.
  rewrite analyze_and_query_completion by discriminate.
  reflexivity.
Qed.

(** A query that cannot be printed makes the query action throw: the query
    route and the combined route answer 500. *)
Example query_routes_unprintable_query :
  handle None (post "/api/query-ora"
                 (VObj [("imageAnalysis", value_of_analysis landscapeFixture);
                        ("query", VObj [("toString", VNum 1)])]))
  = json 500 (error_body "Cannot convert object to primitive value") /\
  handle None (post "/api/analyze-and-query"
                 (VObj [("imageUrl", VStr "https://example.com/sample-image.jpg");
                        ("query", VObj [("toString", VNum 1)])]))
  = json 500 (error_body "Cannot convert object to primitive value").
Proof. split; reflexivity. Qed.

(** A feature that cannot be printed makes the adapter throw; the vision
    action catches the exception. *)
Example analyze_route_unprintable_feature :
  handle None (post "/api/analyze-image"
                 (VObj [("imageUrl", VStr "https://example.com/sample-image.jpg");
                        ("features", VArr [VObj [("toString", VNum 1)]])]))
  = json 200 (VObj [("success", VBool false);
                    ("error", VStr "Cannot convert object to primitive value")]).
Proof. reflexivity. Qed.

(** The cat example through [execute]. *)
Example execute_cat_example :
  execute (VObj [("imageAnalysis", value_of_analysis catAnalysis);
                 ("query", VStr "what animal is this")])
  = Returned
      (VObj [("completion",
              VStr "The image shows a cat. Cats are domestic felines known for their independent nature and grooming habits. They are popular pets worldwide.")]).
Proof. rewrite execute_typed. reflexivity. Qed.

End Examples.

(* ================================================================== *)
(** * Further properties of the synthesizer *)

Section SynthesizerFurther.

Lemma filter_map_commute {A B : Type} (f : A -> B) (p : B -> bool) (l : list A) :
  map f (filter (fun x => p (f x)) l) = filter p (map f l).
Proof.
  induction l as [|x l IH]; [reflexivity|].
  cbn [filter map]. destruct (p (f x)); cbn [map]; now rewrite IH.
Qed.

Lemma prefix_app_self (p s : string) : String.prefix p (p ++ s) = true.
Proof.
  induction p as [|c p IH]; cbn [append].
  - destruct s; reflexivity.
  - cbn [String.prefix]. destruct (ascii_dec c c); [exact IH | contradiction].
Qed.

Lemma mainLabels_descriptions (a : AnalysisResult) :
  mainLabels a = map toLowerCase (slice 0 5 (map description (labels a))).
Proof. unfold mainLabels. now rewrite slice_map, map_map. Qed.

Lemma mainObjects_names (a : AnalysisResult) :
  mainObjects a = map toLowerCase (map name (objects a)).
Proof. unfold mainObjects. now rewrite map_map. Qed.

Lemma watchDetails_descriptions (a : AnalysisResult) :
  watchDetails a =
  slice 0 5 (filter (fun d => notWatchName (toLowerCase d)) (map description (labels a))).
Proof.
  unfold watchDetails.
  now rewrite <- slice_map, (filter_map_commute description
                               (fun d => notWatchName (toLowerCase d))).
Qed.

(** The response is a function of the label descriptions, the object names
    and the text. *)
Lemma generateResponse_congruence (a b : AnalysisResult) (query ctx ctx' : string) :
  mainLabels a = mainLabels b ->
  mainObjects a = mainObjects b ->
  map name (objects a) = map name (objects b) ->
  text a = text b ->
  (watchCondition (mainLabels a) (mainObjects a) = true ->
   watchDetails a = watchDetails b) ->
  generateResponse a query ctx = generateResponse b query ctx'.
Proof.
  intros Hl Ho Hn Ht Hw.
  unfold generateResponse, detectedLuxuryItems, allEntities. cbv zeta.
  rewrite <- Hl, <- Ho, <- Hn, <- Ht.
  destruct (watchCondition (mainLabels a) (mainObjects a)).
  - now rewrite (Hw eq_refl).
  - reflexivity.
Qed.

(** X1.  Scores and bounding polygons never reach the response: two
    analyses with the same label descriptions, the same object names and
    the same text get the same response. *)
Theorem scores_are_irrelevant (a b : AnalysisResult) (query ctx : string) :
  map description (labels a) = map description (labels b) ->
  map name (objects a) = map name (objects b) ->
  text a = text b ->
  generateResponse a query ctx = generateResponse b query ctx.
Proof.
  intros Hd Hn Ht. apply generateResponse_congruence; try assumption.
  - now rewrite !mainLabels_descriptions, Hd.
  - now rewrite !mainObjects_names, Hn.
  - intros _. now rewrite !watchDetails_descriptions, Hd.
Qed.

Lemma scores_are_irrelevant_witness :
  generateResponse dogAnalysis "is this a pet" "" =
  generateResponse dogAnalysisRescored "is this a pet" "".
Proof.
  apply (scores_are_irrelevant dogAnalysis dogAnalysisRescored "is this a pet" "");
    reflexivity.
Defined.

Lemma watchCondition_detected (a : AnalysisResult) :
  watchCondition (mainLabels a) (mainObjects a) = true ->
  detectedLuxuryItems a <> [].
Proof.
  unfold watchCondition. intros H.
  assert (Hin : exists e, In e (allEntities a) /\ In e luxuryItems).
  { unfold allEntities.
    repeat (apply orb_true_iff in H; destruct H as [H|H]);
      apply Array_includes_In in H;
      eexists; (split; [apply in_or_app; ((left; exact H) || (right; exact H)) | simpl; tauto]). }
  destruct Hin as [e [He Hl]].
  pose proof (detected_nonempty a e He Hl) as Hd.
  destruct (detectedLuxuryItems a); [discriminate Hd | discriminate].
Qed.

(** X2.  A main label that merely contains "watch", "jewelry" or "fashion"
    triggers the luxury answer even when no entity is a luxury keyword: the
    answer is then the luxury-collectible sentence with an empty list of
    items. *)
Theorem luxury_substring_lists_no_item (a : AnalysisResult) (query ctx : string) :
  hasLuxurySubstring (mainLabels a) = true ->
  detectedLuxuryItems a = [] ->
  generateResponse a query ctx = luxuryCompletion [] (mainLabels a) /\
  String.prefix "This image shows a luxury collectible item: . The item features "
    (completion (generateResponse a query ctx)) = true.
Proof.
  intros Hsub Hnil.
  assert (Hresp : generateResponse a query ctx = luxuryCompletion [] (mainLabels a)).
  { rewrite generateResponse_luxury.
    - unfold luxuryAnswer.
      destruct (watchCondition (mainLabels a) (mainObjects a)) eqn:Hw.
      + now apply watchCondition_detected in Hw.
      + now rewrite Hnil.
    - unfold luxuryCondition. fold (hasLuxurySubstring (mainLabels a)).
      rewrite Hsub. apply orb_true_r. }
  split; [exact Hresp|]. rewrite Hresp.
  change (completion (luxuryCompletion [] (mainLabels a)))
    with ("This image shows a luxury collectible item: . The item features " ++
          (join ", " (slice 0 3 (mainLabels a)) ++
           " design elements. Luxury items like this are often valued for their craftsmanship, brand prestige, and aesthetic appeal, making them desirable collectibles.")).
  apply prefix_app_self.
Qed.

Lemma luxury_substring_lists_no_item_witness :
  generateResponse smartwatchAnalysis "what animal is this" "" =
    luxuryCompletion [] (mainLabels smartwatchAnalysis) /\
  String.prefix "This image shows a luxury collectible item: . The item features "
    (completion (generateResponse smartwatchAnalysis "what animal is this" "")) = true.
Proof.
  apply (luxury_substring_lists_no_item smartwatchAnalysis "what animal is this" "");
    reflexivity.
Defined.

(** X3.  Labels after the fifth are ignored unless the watch sentence is
    chosen: two analyses with the same first five labels, the same objects
    and the same text get the same response when the watch test fails. *)
Theorem labels_beyond_fifth_are_ignored (a b : AnalysisResult) (query ctx : string) :
  slice 0 5 (labels a) = slice 0 5 (labels b) ->
  objects a = objects b ->
  text a = text b ->
  watchCondition (mainLabels a) (mainObjects a) = false ->
  generateResponse a query ctx = generateResponse b query ctx.
Proof.
  intros Hl Ho Ht Hw. apply generateResponse_congruence.
  - unfold mainLabels. now rewrite Hl.
  - unfold mainObjects. now rewrite Ho.
  - now rewrite Ho.
  - exact Ht.
  - rewrite Hw. discriminate.
Qed.

Lemma labels_beyond_fifth_are_ignored_witness :
  generateResponse sixLabels "what color is it" "" =
  generateResponse fiveLabels "what color is it" "".
Proof.
  apply (labels_beyond_fifth_are_ignored sixLabels fiveLabels "what color is it" "");
    reflexivity.
Defined.

Ltac sentence_cases :=
  repeat match goal with
         | |- context [completion (if ?c then _ else _)] => destruct c
         end;
  reflexivity.

Lemma animalBranch_sentence (main entities : list string) :
  opensLikeASentence (completion (animalBranch main entities)) = true.
Proof. unfold animalBranch. sentence_cases. Qed.

Lemma objectBranch_sentence (main detected names : list string) (tv : TextView) :
  opensLikeASentence (completion (objectBranch main detected names tv)) = true.
Proof. unfold objectBranch. cbv zeta. sentence_cases. Qed.

Lemma colorBranch_sentence (main objs : list string) :
  opensLikeASentence (completion (colorBranch main objs)) = true.
Proof. unfold colorBranch. cbv zeta. sentence_cases. Qed.

Lemma textBranch_sentence (tv : TextView) :
  opensLikeASentence (completion (textBranch tv)) = true.
Proof. unfold textBranch. sentence_cases. Qed.

Lemma locationBranch_sentence (main : list string) :
  opensLikeASentence (completion (locationBranch main)) = true.
Proof. unfold locationBranch. sentence_cases. Qed.

Lemma categoryBranch_sentence (main objs names : list string) (tv : TextView) :
  opensLikeASentence (completion (categoryBranch main objs names tv)) = true.
Proof. unfold categoryBranch. cbv zeta. sentence_cases. Qed.

(** X4.  No completion is empty: every one opens with "Th" (This, The,
    There) or with "I " (I don't, I cannot), so the text of a label, an
    object or the image never comes first. *)
Theorem completion_opens_like_a_sentence (a : AnalysisResult) (query ctx : string) :
  opensLikeASentence (completion (generateResponse a query ctx)) = true /\
  completion (generateResponse a query ctx) <> "".
Proof.
  assert (H : opensLikeASentence (completion (generateResponse a query ctx)) = true).
  { destruct (luxuryCondition (detectedLuxuryItems a) (mainLabels a)) eqn:Hlux.
    - rewrite (generateResponse_luxury a query ctx Hlux). unfold luxuryAnswer.
      destruct (watchCondition _ _); reflexivity.
    - rewrite (generateResponse_classify a query ctx Hlux). unfold answer.
      destruct (classify (toLowerCase query)).
      + apply animalBranch_sentence.
      + apply objectBranch_sentence.
      + apply colorBranch_sentence.
      + apply textBranch_sentence.
      + apply locationBranch_sentence.
      + apply categoryBranch_sentence. }
  split; [exact H|]. intros He. rewrite He in H. discriminate.
Qed.

(** X5.  [generateResponse] is a luxury test followed by a first-match
    lookup in the ordered list animal, object, color, text, location, with
    the category sentences as the default.  The list handed to the object
    handler is empty and the default needs no luxury re-check: both nested
    luxury tests are dead code. *)
Theorem generateResponse_is_first_match (a : AnalysisResult) (query ctx : string) :
  let tv := view_of_text (text a) in
  let names := map name (objects a) in
  generateResponse a query ctx =
  if luxuryCondition (detectedLuxuryItems a) (mainLabels a)
  then luxuryAnswer a
  else firstMatch (toLowerCase query)
         [ (asksAnimal, animalBranch (mainLabels a) (allEntities a));
           (asksObject, objectBranch (mainLabels a) [] names tv);
           (asksColor, colorBranch (mainLabels a) (mainObjects a));
           (asksText, textBranch tv);
           (asksLocation, locationBranch (mainLabels a)) ]
         (categoryBranch (mainLabels a) (mainObjects a) names tv).
Proof.
  cbv zeta.
  destruct (luxuryCondition (detectedLuxuryItems a) (mainLabels a)) eqn:Hlux.
  - now apply generateResponse_luxury.
  - rewrite (generateResponse_classify a query ctx Hlux).
    unfold classify, answer, firstMatch. cbv zeta.
    rewrite (luxuryCondition_false_nil _ _ Hlux).
    destruct (asksAnimal _); [reflexivity|].
    destruct (asksObject _); [reflexivity|].
    destruct (asksColor _); [reflexivity|].
    destruct (asksText _); [reflexivity|].
    destruct (asksLocation _); reflexivity.
Qed.

End SynthesizerFurther.

(* ================================================================== *)
(** * Further properties of the vision adapter and its action *)

Section AdapterFurther.
Import GoogleVisionClient.

(** X6.  [analyzeImage] throws to its caller when [features] is given and
    is not an array: [features.join] is called before the [try]. *)
Theorem analyzeImage_throws_on_non_array_features (client : Client)
  (imageUrl : string) (features : value) :
  features <> VUndefined ->
  (forall fs, features <> VArr fs) ->
  analyzeImage client imageUrl features =
  Thrown (match features with
          | VNull => cannot_read VNull "join"
          | _ => not_a_function "features.join"
          end).
Proof.
  intros Hu Ha. unfold analyzeImage.
  destruct features as [| |b|n|s|fs|props]; try reflexivity.
  - contradiction.
  - now elim (Ha fs).
Qed.

Lemma analyzeImage_throws_on_non_array_features_witness :
  analyzeImage None "https://example.com/sample-image.jpg" (VStr "LABEL_DETECTION")
  = Thrown (TypeError "features.join is not a function").
Proof.
  apply (analyzeImage_throws_on_non_array_features None
           "https://example.com/sample-image.jpg" (VStr "LABEL_DETECTION"));
    [discriminate | intros fs; discriminate].
Defined.

(** X7.  For a list of feature names (or none): when the service
    resolves and the first response carries no error, [analyzeImage]
    returns the annotations of that response: absent label or object
    annotations become empty lists, an absent text annotation the empty
    string; later responses are not read. *)
Theorem analyzeImage_success (annotate : AnnotateRequest -> Outcome)
  (imageUrl : string) (features : option (list string))
  (r : AnnotateImageResponse) (rest : list AnnotateImageResponse) :
  annotate (requestOf imageUrl features) = Resolves (r :: rest) ->
  error r = None ->
  analyzeImage (Some annotate) imageUrl (featuresArgument features) =
  Returned {| labels := match labelAnnotations r with Some l => l | None => [] end;
              text := match fullTextAnnotation r with Some t => t | None => "" end;
              objects := match localizedObjectAnnotations r with
                         | Some l => l
                         | None => []
                         end |}.
Proof.
  intros Hr He. rewrite analyzeImage_returns. unfold analysisOf.
  now rewrite Hr, He.
Qed.

Lemma analyzeImage_success_witness :
  analyzeImage (respondsWith textOnlyResponse) "https://example.com/sign.jpg"
    (featuresArgument (Some ["TEXT_DETECTION"]))
  = Returned {| labels := []; text := "EXIT"; objects := [] |}.
Proof.
  exact (analyzeImage_success (fun _ => Resolves [textOnlyResponse])
           "https://example.com/sign.jpg" (Some ["TEXT_DETECTION"])
           textOnlyResponse [] eq_refl eq_refl).
Defined.

(** X8.  Whatever the image reference, the fallback of [getMockResponse]
    has exactly five labels, no text and at least one object, every score
    lies between 0 and 1, and it never triggers the luxury answer. *)
Theorem getMockResponse_shape (imageUrl : string) :
  let r := getMockResponse imageUrl in
  List.length (labels r) = 5 /\
  text r = "" /\
  objects r <> [] /\
  forallb (fun l => validScore (score l)) (labels r) = true /\
  forallb (fun o => validScore (objectScore o)) (objects r) = true /\
  luxuryCondition (detectedLuxuryItems r) (mainLabels r) = false.
Proof.
  cbv zeta. unfold getMockResponse.
  destruct (startsWith imageUrl "data:image/");
    [destruct (includes imageUrl personSignature)|];
    (repeat split; try reflexivity; discriminate).
Qed.

Lemma message_TypeError (m : string) : message (TypeError m) = m.
Proof. reflexivity. Qed.

(** The result of the vision action on a parameters object, case by case. *)
Lemma visionAction_execute_object (client : Client) (props : list (string * value)) :
  GoogleVisionAction.execute client (VObj props) =
  Returned
    match field "imageUrl" props with
    | VStr imageUrl =>
        match analyzeImage client imageUrl (field "features" props) with
        | Returned data => visionSuccess data
        | Thrown error => visionFailure error
        end
    | VUndefined => visionFailure (cannot_read VUndefined "substring")
    | VNull => visionFailure (cannot_read VNull "substring")
    | _ => visionFailure (not_a_function "imageUrl.substring")
    end.
Proof.
  unfold GoogleVisionAction.execute.
  rewrite !destructure_object, !bind_Returned.
  destruct (field "imageUrl" props) as [| |b|n|imageUrl|l|p]; try reflexivity.
  cbn [GoogleVisionAction.as_string]. rewrite bind_ret.
  destruct (analyzeImage client imageUrl (field "features" props)); reflexivity.
Qed.

(** X9.  [GoogleVisionAction.execute] never throws on a parameters
    object: it returns [{ success: true, data }] or
    [{ success: false, error }].  It succeeds when [imageUrl] is a string
    and [features] is absent or an array of feature names.  It fails, with
    the text of the type error, when the first feature is an object with an
    own property [toString], when [features] is neither absent nor an
    array, and when [imageUrl] is not a string. *)
Theorem visionAction_never_throws (client : Client) (imageUrl features : value)
  (url : string) (names : option (list string))
  (v : value) (rest : list (string * value)) (fs : list value) :
  let run iu f :=
    GoogleVisionAction.execute client (VObj [("imageUrl", iu); ("features", f)]) in
  (exists r, run imageUrl features = Returned r /\
             ((exists data, r = visionSuccess data) \/
              (exists error, r = visionFailure error))) /\
  run (VStr url) (featuresArgument names)
  = Returned (visionSuccess (analysisOf client url names)) /\
  run (VStr url) (VArr (VObj (("toString", v) :: rest) :: fs))
  = Returned (VObj [("success", VBool false);
                    ("error", VStr "Cannot convert object to primitive value")]) /\
  match features with
  | VUndefined | VArr _ => True
  | VNull =>
      run (VStr url) features
      = Returned (VObj [("success", VBool false);
                        ("error", VStr "Cannot read properties of null (reading 'join')")])
  | _ =>
      run (VStr url) features
      = Returned (VObj [("success", VBool false);
                        ("error", VStr "features.join is not a function")])
  end /\
  match imageUrl with
  | VStr _ => True
  | VUndefined | VNull =>
      run imageUrl features
      = Returned (VObj [("success", VBool false);
                        ("error", VStr ("Cannot read properties of " ++ type_name imageUrl
                                        ++ " (reading 'substring')"))])
  | _ =>
      run imageUrl features
      = Returned (VObj [("success", VBool false);
                        ("error", VStr "imageUrl.substring is not a function")])
  end.
Proof.
  cbv beta zeta. rewrite !visionAction_execute_object.
  change (field "imageUrl" [("imageUrl", imageUrl); ("features", features)])
    with imageUrl.
  change (field "features" [("imageUrl", imageUrl); ("features", features)])
    with features.
  change (field "imageUrl" [("imageUrl", VStr url); ("features", features)])
    with (VStr url).
  change (field "features" [("imageUrl", VStr url); ("features", features)])
    with features.
  split; [|split; [|split; [|split]]].
  - eexists. split; [reflexivity|].
    destruct imageUrl as [| |b|n|s|l|p];
      try (right; eexists; reflexivity).
    destruct (analyzeImage client s features);
      [left | right]; eexists; reflexivity.
  - change (field "imageUrl" _) with (VStr url).
    change (field "features" _) with (featuresArgument names).
    cbv beta iota. now rewrite analyzeImage_returns.
  - change (field "imageUrl" _) with (VStr url).
    change (field "features" _)
      with (VArr (VObj (("toString", v) :: rest) :: fs)).
    cbv beta iota. unfold analyzeImage. cbv zeta.
    now rewrite call_features_join_unprintable.
  - destruct features; try exact I; reflexivity.
  - destruct imageUrl; try exact I; reflexivity.
Qed.

Lemma no_comma_cons (c : ascii) (s : string) :
  includes (String c s) "," = false ->
  Ascii.eqb c "," = false /\ includes s "," = false.
Proof.
  cbn [includes String.prefix]. intros H. apply orb_false_iff in H as [Hp Hs].
  split; [|exact Hs].
  destruct (ascii_dec "," c) as [<-|Hne].
  - destruct s; discriminate.
  - apply Ascii.eqb_neq. congruence.
Qed.

Lemma upto_no_comma (s : string) :
  includes s "," = false -> upto "," s = s.
Proof.
  induction s as [|c s IH]; [reflexivity|]. intros H.
  apply no_comma_cons in H as [Hc Hs]. cbn [upto]. rewrite Hc. now rewrite IH.
Qed.

Lemma split_second_payload (header payload : string) :
  includes header "," = false -> includes payload "," = false ->
  split_second "," (header ++ "," ++ payload) = Some payload.
Proof.
  intros Hh Hp. induction header as [|c h IH].
  - cbn. now rewrite upto_no_comma.
  - apply no_comma_cons in Hh as [Hc Hs]. cbn [append split_second].
    rewrite Hc. now apply IH.
Qed.

(** X10.  For a data URI [header,payload] without further commas the
    service is asked about the payload alone, together with one
    [{ type: feature }] object per requested feature; nothing else of the
    service is consulted. *)
Theorem data_uri_payload_is_sent (annotate : AnnotateRequest -> Outcome)
  (header payload : string) (fs : list value) :
  startsWith (header ++ "," ++ payload) "data:image/" = true ->
  includes header "," = false ->
  includes payload "," = false ->
  analyzeImage (Some annotate) (header ++ "," ++ payload) (VArr fs) =
  analyzeImage
    (Some (fun _ =>
             annotate {| image := Content (Some payload);
                         features := map (fun f => VObj [("type", f)]) fs |}))
    (header ++ "," ++ payload) (VArr fs).
Proof.
  intros Hd Hh Hp. unfold analyzeImage. cbv zeta.
  destruct (call_features_join (VArr fs)) as [u|e]; [|reflexivity].
  rewrite !bind_Returned, Hd, (split_second_payload header payload Hh Hp).
  reflexivity.
Qed.

Lemma data_uri_payload_is_sent_witness :
  analyzeImage (Some echoService)
    ("data:image/png;base64" ++ "," ++ "iVBORw0KGgo=") (VArr [VStr "TEXT_DETECTION"])
  = analyzeImage
      (Some (fun _ =>
               echoService
                 {| image := Content (Some "iVBORw0KGgo=");
                    features := map (fun f => VObj [("type", f)])
                                    [VStr "TEXT_DETECTION"] |}))
      ("data:image/png;base64" ++ "," ++ "iVBORw0KGgo=") (VArr [VStr "TEXT_DETECTION"]).
Proof.
  exact (data_uri_payload_is_sent echoService
           "data:image/png;base64" "iVBORw0KGgo=" [VStr "TEXT_DETECTION"]
           eq_refl eq_refl eq_refl).
Defined.

End AdapterFurther.

(* ================================================================== *)
(** * Further properties of [OraAction.execute] *)

Section ExecuteFurther.
Context {ops : NumberOps}.

Lemma generateResponseOf_query_not_a_string (a : AnalysisResult) (query ctx : value) :
  generateResponseOf (value_of_analysis a) query ctx =
  match query with
  | VStr s => Returned (generateResponse a s "")
  | VUndefined | VNull => Thrown (cannot_read query "toLowerCase")
  | _ => Thrown (not_a_function "query.toLowerCase")
  end.
Proof.
  destruct query as [| |b|n|s|l|p];
    [ | | | | apply generateResponseOf_typed | | ];
    unfold generateResponseOf;
    rewrite destructure_labels, bind_Returned, destructure_objects, bind_Returned,
      destructure_text, bind_Returned, call_slice0_array, bind_Returned,
      as_array_array, bind_Returned, slice_map,
      (mapM_label_descriptions value_of_label member_label_description),
      bind_Returned, as_array_array, bind_Returned, mapM_object_names, bind_Returned;
    cbn [call_toLowerCase throw bind]; reflexivity.
Qed.

Lemma oraAnswer_query_not_a_string (a : AnalysisResult) (query : value) :
  oraAnswer (value_of_analysis a) query =
  match query with
  | VStr s => value_of_completion (generateResponse a s "")
  | VUndefined | VNull => error_object (cannot_read query "toLowerCase")
  | _ => error_object (not_a_function "query.toLowerCase")
  end.
Proof.
  unfold oraAnswer, synthesize.
  destruct (prepareContextString_typed a) as [c ->].
  rewrite bind_Returned, generateResponseOf_query_not_a_string.
  destruct query; reflexivity.
Qed.

(** X11.  On the object of a well-formed analysis, [execute] returns the
    completion of [generateResponse] when the query is a string.  For a
    query that is [undefined], [null], a boolean, a number or an object
    without an own property [toString] it returns the error object of the
    failed [query.toLowerCase()] call; for an object with an own property
    [toString] it throws, because the query is printed before the [try].
    (Queries that are arrays are left aside.) *)
Theorem execute_on_wellformed_analysis (a : AnalysisResult) (query : value) :
  let result :=
    execute (VObj [("imageAnalysis", value_of_analysis a); ("query", query)]) in
  match query with
  | VStr s =>
      result
      = Returned (VObj [("completion", VStr (completion (generateResponse a s "")))])
  | VUndefined | VNull =>
      result
      = Returned
          (VObj [("error", VBool true);
                 ("message", VStr ("Failed to query ORA API: Cannot read properties of "
                                   ++ type_name query ++ " (reading 'toLowerCase')"))])
  | VBool _ | VNum _ =>
      result
      = Returned
          (VObj [("error", VBool true);
                 ("message", VStr "Failed to query ORA API: query.toLowerCase is not a function")])
  | VObj props =>
      result
      = match lookup "toString" props with
        | None =>
            Returned
              (VObj [("error", VBool true);
                     ("message", VStr "Failed to query ORA API: query.toLowerCase is not a function")])
        | Some _ => Thrown (TypeError "Cannot convert object to primitive value")
        end
  | VArr _ => True
  end.
Proof.
  cbv zeta. rewrite execute_object.
  change (field "imageAnalysis" _) with (value_of_analysis a).
  change (field "query" _) with query.
  rewrite oraAnswer_query_not_a_string.
  destruct query as [| |b|n|s|l|p]; try reflexivity; try exact I.
  cbn [printable]. destruct (lookup "toString" p); reflexivity.
Qed.

(** Labels that carry a description only. *)

Lemma member_unscored_description (l : Label) :
  member (descriptionOnly l) "description" = Returned (VStr (description l)).
Proof. reflexivity. Qed.

Lemma generateResponseOf_unscored (a : AnalysisResult) (query : string) (ctx : value) :
  generateResponseOf (unscoredAnalysis a) (VStr query) ctx
  = Returned (generateResponse a query "").
Proof.
  exact (generateResponseOf_labels descriptionOnly member_unscored_description
           a query "" ctx).
Qed.

Lemma prepareContextString_unscored (l : Label) (ls : list Label) (t : string)
  (os : list LocalizedObject) :
  prepareContextString
    (unscoredAnalysis {| labels := l :: ls; text := t; objects := os |})
  = Thrown (cannot_read VUndefined "toFixed").
Proof.
  unfold prepareContextString, unscoredAnalysis.
  rewrite !destructure_object, !bind_Returned.
  change (field "labels" _) with (VArr (map descriptionOnly (l :: ls))).
  rewrite longer_than_array, bind_Returned, as_array_array, bind_Returned.
  reflexivity.
Qed.

(** X12.  A label without a [score] makes [execute] fail although the
    answer never depends on scores: [generateResponse] alone returns the
    completion of the scored analysis, but [prepareContextString] throws
    on [label.score.toFixed], and [execute] returns the error object. *)
Theorem execute_fails_without_scores (l : Label) (ls : list Label) (t : string)
  (os : list LocalizedObject) (query : string) (ctx : value) :
  let a := {| labels := l :: ls; text := t; objects := os |} in
  generateResponseOf (unscoredAnalysis a) (VStr query) ctx
  = Returned (generateResponse a query "") /\
  execute (VObj [("imageAnalysis", unscoredAnalysis a); ("query", VStr query)])
  = Returned
      (VObj [("error", VBool true);
             ("message", VStr "Failed to query ORA API: Cannot read properties of undefined (reading 'toFixed')")]).
Proof.
  cbv zeta. split; [apply generateResponseOf_unscored|].
  rewrite execute_object.
  change (field "query" _) with (VStr query).
  change (field "imageAnalysis" _)
    with (unscoredAnalysis {| labels := l :: ls; text := t; objects := os |}).
  unfold oraAnswer, synthesize.
  now rewrite prepareContextString_unscored.
Qed.

End ExecuteFurther.

(* ================================================================== *)
(** * Further properties of the routes *)

Section RoutesFurther.
Import GoogleVisionClient Server.
Context {ops : NumberOps}.
Variable client : Client.

Ltac route_step :=
  cbn [method pathname body post parseRequestBody bind ret member field lookup
       String.eqb Ascii.eqb Bool.eqb andb negb orb truthy
       analyzeImageBody queryOraBody analyzeAndQueryBody featureFields].

Lemma value_is_null_or_undefined (data : value) :
  data = VNull \/ data = VUndefined \/ (data <> VNull /\ data <> VUndefined).
Proof.
  destruct data; auto; right; right; split; discriminate.
Qed.

Lemma wellFormed_success (data : value) : wellFormed (json 200 data).
Proof.
  split; [reflexivity|]. cbn [status json]. intros H.
  apply Nat.leb_le in H. discriminate H.
Qed.

Lemma wellFormed_error (code : nat) (msg : string) :
  knownStatus code = true -> wellFormed (json code (error_body msg)).
Proof.
  intros Hc. split; [exact Hc|]. intros _.
  split; [reflexivity | now exists msg].
Qed.

Lemma wellFormedOutcome_bind {A : Type} (m : result A) (k : A -> result Response) :
  (forall a, wellFormedOutcome (k a)) -> wellFormedOutcome (bind m k).
Proof. intros H. destruct m; [apply H | exact I]. Qed.

Ltac outcome_step :=
  first
    [ apply wellFormedOutcome_bind; intros ?
    | match goal with
      | |- wellFormedOutcome (if ?c then _ else _) => destruct c
      end
    | apply wellFormed_success
    | apply wellFormed_error; reflexivity ].

(** X13.  Every response carries one of the status codes 200, 204, 400,
    404 and 500, and every response with a status of 400 or more is JSON
    with a body of the form [{ error: message }]. *)
Theorem handle_status_and_error_body (req : Request) :
  knownStatus (status (handle client req)) = true /\
  (400 <= status (handle client req) ->
   contentType (handle client req) = Some "application/json" /\
   exists msg, payload (handle client req) = Json (VObj [("error", VStr msg)])).
Proof.
  change (wellFormed (handle client req)). unfold handle.
  destruct (String.eqb (method req) "OPTIONS").
  { split; [reflexivity|]. cbn [status]. intros H.
    apply Nat.leb_le in H. discriminate H. }
  cbv zeta.
  match goal with
  | |- wellFormed (match ?o with _ => _ end) =>
      assert (Ho : wellFormedOutcome o); [|destruct o; [exact Ho|]]
  end.
  - repeat outcome_step.
    split; [reflexivity|]. cbn [status]. intros H.
    apply Nat.leb_le in H. discriminate H.
  - now apply wellFormed_error.
Qed.

(** X14.  On each of the three POST routes a body that [JSON.parse]
    rejects is answered with 500 and the message "Invalid JSON", and an
    error of the request stream with 500 and the message of that error.
    The root page is served without reading the body. *)
Theorem unparsable_body_is_a_server_error (e : exn) :
  Forall (fun path =>
            handle client (request "POST" path Malformed)
            = json 500 (VObj [("error", VStr "Invalid JSON")]) /\
            handle client (request "POST" path (StreamError e))
            = json 500 (VObj [("error", VStr (message e))]))
         apiRoutes /\
  status (handle client (request "GET" "/" Malformed)) = 200.
Proof.
  split; [|reflexivity].
  repeat constructor.
Qed.

(** X15.  Apart from OPTIONS requests, POST requests to the three routes
    and GET requests for the root path, every request is answered with 404
    and [{ error: "Not Found" }], whatever its body. *)
Theorem other_requests_are_not_found (req : Request) :
  method req = "OPTIONS" \/
  (method req = "POST" /\ In (pathname req) apiRoutes) \/
  (method req = "GET" /\ pathname req = "/") \/
  handle client req = json 404 (VObj [("error", VStr "Not Found")]).
Proof.
  unfold handle, apiRoutes.
  destruct (String.eqb_spec (method req) "OPTIONS") as [|Ho]; [now left|].
  right. cbv zeta.
  destruct (String.eqb_spec (pathname req) "/api/analyze-image") as [H1|H1];
    destruct (String.eqb_spec (pathname req) "/api/query-ora") as [H2|H2];
    destruct (String.eqb_spec (pathname req) "/api/analyze-and-query") as [H3|H3];
    destruct (String.eqb_spec (pathname req) "/") as [H4|H4];
    destruct (String.eqb_spec (method req) "POST") as [Hp|Hp];
    destruct (String.eqb_spec (method req) "GET") as [Hg|Hg];
    cbn [andb];
    first
      [ left; split; [assumption|]; cbn [In]; (rewrite H1 || rewrite H2 || rewrite H3); tauto
      | right; left; split; assumption
      | right; right; reflexivity
      | congruence ].
Qed.

Lemma member_defined (data : value) (k : string) :
  data <> VNull -> data <> VUndefined ->
  exists v, member data k = Returned v.
Proof. intros Hn Hu. destruct data; try contradiction; eexists; reflexivity. Qed.

Lemma visionAction_returns (props : list (string * value)) :
  exists v, GoogleVisionAction.execute client (VObj props) = Returned v.
Proof. rewrite visionAction_execute_object. eexists. reflexivity. Qed.

(** X16.  On the analyze route a failure of the vision action never
    becomes a 500: every JSON body other than [null] is answered with 200
    or 400.  The query route is different: when the query is an object
    with an own property [toString] (and the analysis is truthy), the query
    action throws before its [try] and the route answers 500 with the text
    of the TypeError. *)
Theorem single_step_routes_statuses (data imageAnalysis v : value)
  (rest : list (string * value)) :
  (data = VNull \/ data = VUndefined \/
   status (handle client (post "/api/analyze-image" data)) = 200 \/
   status (handle client (post "/api/analyze-image" data)) = 400) /\
  (truthy imageAnalysis = false \/
   handle client
     (post "/api/query-ora"
        (VObj [("imageAnalysis", imageAnalysis);
               ("query", VObj (("toString", v) :: rest))]))
   = json 500 (VObj [("error", VStr "Cannot convert object to primitive value")])).
Proof.
  split.
  - destruct (value_is_null_or_undefined data) as [H|[H|[Hn Hu]]];
      [now left | now right; left | right; right].
    unfold handle. route_step.
    destruct (member_defined data "imageUrl" Hn Hu) as [u ->]. route_step.
    destruct (truthy u); route_step; [|now right].
    destruct (member_defined data "features" Hn Hu) as [f ->]. route_step.
    unfold executeAction. route_step.
    destruct (visionAction_returns
                [("imageUrl", u); ("features", js_or f defaultFeatures)]) as [r ->].
    now left.
  - destruct (truthy imageAnalysis) eqn:Hia; [right | now left].
    pose proof (query_ora_route client imageAnalysis (VObj (("toString", v) :: rest)))
      as H.
    unfold queryOraBody in H. rewrite H, Hia. reflexivity.
Qed.

Lemma visionAction_rejects_non_string (imageUrl features : value) :
  truthy imageUrl = true -> (forall s, imageUrl <> VStr s) ->
  GoogleVisionAction.execute client
    (VObj [("imageUrl", imageUrl); ("features", features)])
  = Returned (visionFailure (not_a_function "imageUrl.substring")).
Proof.
  intros Ht Hs. rewrite visionAction_execute_object.
  change (field "imageUrl" _) with imageUrl.
  destruct imageUrl as [| |b|n|s|l|p]; try reflexivity; try discriminate Ht.
  now elim (Hs s).
Qed.

Lemma non_string_imageUrl_routes (imageUrl : value) (c : ascii) (q : string) :
  truthy imageUrl = true -> (forall s, imageUrl <> VStr s) ->
  handle client (post "/api/analyze-image" (VObj [("imageUrl", imageUrl)]))
  = json 200 (VObj [("success", VBool false);
                    ("error", VStr "imageUrl.substring is not a function")]) /\
  handle client (post "/api/analyze-and-query"
                   (VObj [("imageUrl", imageUrl); ("query", VStr (String c q))]))
  = json 500 (VObj [("error", VStr "Failed to analyze image: imageUrl.substring is not a function")]).
Proof.
  intros Ht Hs.
  pose proof (visionAction_rejects_non_string imageUrl
                (js_or VUndefined defaultFeatures) Ht Hs) as H.
  split.
  - unfold handle.
    cbn [method pathname body post parseRequestBody bind ret member field lookup
         String.eqb Ascii.eqb Bool.eqb andb].
    rewrite Ht. cbn [negb]. unfold executeAction.
    cbn [String.eqb Ascii.eqb Bool.eqb bind ret json]. rewrite H. reflexivity.
  - unfold handle.
    cbn [method pathname body post parseRequestBody bind ret member field lookup
         String.eqb Ascii.eqb Bool.eqb andb].
    rewrite Ht. cbn [negb orb truthy String.length Nat.ltb Nat.leb]. unfold executeAction.
    cbn [String.eqb Ascii.eqb Bool.eqb bind ret json]. rewrite H. reflexivity.
Qed.

(** X17.  An [imageUrl] that is truthy but not a string makes the vision
    action fail; with a non-empty string query the analyze route reports
    the failure in a 200 response and the combined route answers 500 with
    the same message. *)
Theorem analysis_failure_is_200_or_500 (imageUrl : value) (c : ascii) (q : string) :
  (exists s, imageUrl = VStr s) \/ truthy imageUrl = false \/
  (handle client (post "/api/analyze-image" (VObj [("imageUrl", imageUrl)]))
   = json 200 (VObj [("success", VBool false);
                     ("error", VStr "imageUrl.substring is not a function")]) /\
   handle client (post "/api/analyze-and-query"
                    (VObj [("imageUrl", imageUrl); ("query", VStr (String c q))]))
   = json 500 (VObj [("error", VStr "Failed to analyze image: imageUrl.substring is not a function")])).
Proof.
  destruct (truthy imageUrl) eqn:Ht; [|now right; left].
  destruct imageUrl as [| |b|n|s|l|p];
    try (left; eexists; reflexivity);
    right; right; apply non_string_imageUrl_routes;
    solve [exact Ht | intros s; discriminate].
Qed.

(** X18.  The query route on the object of a well-formed analysis and a
    string query: 200 with the completion of [generateResponse] when the
    query is not empty, 400 when it is. *)
Theorem query_route_completion (a : AnalysisResult) (query : string) :
  handle client (post "/api/query-ora"
                   (queryOraBody (value_of_analysis a) (VStr query)))
  = if 0 <? String.length query
    then json 200 (VObj [("completion",
                          VStr (completion (generateResponse a query "")))])
    else json 400 (VObj [("error", VStr "imageAnalysis and query are required")]).
Proof.
  rewrite query_ora_route, oraAnswer_typed.
  cbn [truthy value_of_analysis andb printable].
  destruct (0 <? String.length query); reflexivity.
Qed.

End RoutesFurther.

Section WithoutCredentials.
Import GoogleVisionClient Server.
Context {ops : NumberOps}.

(** X19.  Without a client (no credentials) and with a list of feature
    names (or none), the combined route answers every non-empty string
    [imageUrl] and non-empty string query with 200, the fixture of
    [getMockResponse] for that [imageUrl] and the completion of
    [generateResponse] on that fixture; an empty string gives 400. *)
Theorem combined_route_without_credentials (imageUrl query : string)
  (features : option (list string)) :
  handle None (post "/api/analyze-and-query"
                 (analyzeAndQueryBody imageUrl (VStr query) features))
  = if (0 <? String.length imageUrl) && (0 <? String.length query)
    then json 200
           (VObj [("success", VBool true);
                  ("imageAnalysis", value_of_analysis (getMockResponse imageUrl));
                  ("oraResponse",
                   VObj [("completion",
                          VStr (completion
                                  (generateResponse (getMockResponse imageUrl) query "")))])])
    else json 400 (VObj [("error", VStr "imageUrl and query are required")]).
Proof.
  rewrite analyze_and_query_route. cbn [truthy printable].
  destruct ((0 <? String.length imageUrl) && (0 <? String.length query)) eqn:Hc;
    [|reflexivity].
  cbv zeta.
  change (analysisOf None imageUrl features) with (getMockResponse imageUrl).
  now rewrite oraAnswer_typed.
Qed.

End WithoutCredentials.
